(** * HeyGen MCP server: a shallow embedding of [src/index.ts]

    The server is a protocol adapter: a static catalog of tools, a
    dispatcher that turns one tool invocation into one outbound HTTP
    request, and a transport adapter ([makeRequest]) that builds the
    request, calls [fetch] and raises on a non-success status.

    Conventions of the embedding.
    - A JavaScript string is the sequence of its UTF-8 bytes ([string]).
    - A JavaScript number is an integer ([Z]) where the code computes
      with it or a statement is about an integer; [Number_toString] prints
      it in decimal, which is what [Number.prototype.toString] does for
      the integers a number holds exactly, those up to 2^53 - 1 in
      magnitude.
    - [undefined] is a value of its own ([VUndefined]) where the source
      handles values of type [any], and [None] where the source declares a
      typed optional ([contentType?: string], [limit?: number], ...).
    - The outside world (file system, network) is a pair of functions the
      code calls; every call is also recorded in a trace of events, so that
      what a handler did can be stated.
    - A tool invocation is modelled twice. [CallToolRequest] is an
      invocation with an argument object whose properties are absent or
      hold a value of the type the handler's casts declare, numbers being
      integers. [Wire.request] is any invocation the protocol lets
      through: the argument object may be missing, a property may hold
      [null], and a number may be any number. The first is the second
      restricted ([typed_invocations_agree]). *)

From Stdlib Require Import ZArith Ascii String DecimalString.
From Stdlib.Strings Require Import Byte.
From stdpp Require Import base option list gmap strings.

Set Warnings "-register-all,-clear-no-such-hyp".

Local Open Scope string_scope.
Local Open Scope Z_scope.

(** ** Characters and strings *)

(** The double quote and the line feed, which a string literal cannot hold. *)
Definition dquote : ascii := "034"%char.
Definition newline : ascii := "010"%char.

(** [quoted s] is [s] between double quotes, with no escaping. *)
Definition quoted (s : string) : string := String dquote (s +:+ String dquote "").

(** [Array.prototype.join]. *)
Fixpoint join (sep : string) (l : list string) : string :=
  match l with
  | [] => ""
  | [x] => x
  | x :: l' => x +:+ sep +:+ join sep l'
  end.

(** One hexadecimal digit of a number below 16. *)
Definition hex_digit (upper : bool) (n : N) : ascii :=
  if (n <? 10)%N then ascii_of_N (48 + n)
  else ascii_of_N ((if upper then 55 else 87) + n).

(** [Number.prototype.toString] on an integer that a number holds
    exactly (up to 2^53 - 1 in magnitude): its decimal digits. *)
Definition Number_toString (z : Z) : string := NilZero.string_of_int (Z.to_int z).

(** [Boolean.prototype.toString]. *)
Definition Boolean_toString (b : bool) : string := if b then "true" else "false".

(** ** JavaScript values *)

Inductive jsvalue : Type :=
| VUndefined
| VNull
| VBool (b : bool)
| VNumber (z : Z)
| VString (s : string)
| VBuffer (data : list byte)
| VArray (items : list jsvalue)
| VObject (props : list (string * jsvalue)).

(** ToBoolean: what [if (v)] tests. *)
Definition truthy (v : jsvalue) : bool :=
  match v with
  | VUndefined | VNull => false
  | VBool b => b
  | VNumber z => negb (z =? 0)
  | VString s => negb (String.eqb s "")
  | VBuffer _ | VArray _ | VObject _ => true
  end.

(** The [typeof] operator. *)
Definition typeof (v : jsvalue) : string :=
  match v with
  | VUndefined => "undefined"
  | VBool _ => "boolean"
  | VNumber _ => "number"
  | VString _ => "string"
  | VNull | VBuffer _ | VArray _ | VObject _ => "object"
  end.

(** [Buffer.isBuffer]. *)
Definition Buffer_isBuffer (v : jsvalue) : bool :=
  match v with VBuffer _ => true | _ => false end.

(** ToBoolean on a typed optional string: [undefined] and the empty string
    are falsy. *)
Definition truthy_string (o : option string) : bool :=
  match o with
  | Some s => negb (String.eqb s "")
  | None => false
  end.

(** A typed optional inside a template literal: [undefined] prints as the
    word. *)
Definition template (o : option string) : string := default "undefined" o.

(** A typed optional as a value. *)
Definition of_optional (o : option string) : jsvalue :=
  match o with Some s => VString s | None => VUndefined end.

(** ** JSON.stringify *)

(** QuoteJSONString, one code unit: the two-character escapes, [\u00xx]
    for the other control characters, the character itself otherwise. *)
Definition quote_json_char (c : ascii) : string :=
  let n := N_of_ascii c in
  if (n =? 8)%N then "\b"
  else if (n =? 9)%N then "\t"
  else if (n =? 10)%N then "\n"
  else if (n =? 12)%N then "\f"
  else if (n =? 13)%N then "\r"
  else if (n =? 34)%N then String "\" (String dquote "")
  else if (n =? 92)%N then "\\"
  else if (n <? 32)%N then
    "\u00" +:+ String (hex_digit false (n / 16)) (String (hex_digit false (n mod 16)) "")
  else String c "".

Fixpoint quote_json_chars (s : string) : string :=
  match s with
  | EmptyString => ""
  | String c s' => quote_json_char c +:+ quote_json_chars s'
  end.

Definition QuoteJSONString (s : string) : string := quoted (quote_json_chars s).

(** The closing step of SerializeJSONObject and SerializeJSONArray:
    [partial] holds the members already serialized, [stepback] is the
    indentation outside the brackets. *)
Definition wrap_members (gap stepback : string) (opening closing : string)
    (partial : list string) : string :=
  match partial with
  | [] => opening +:+ closing
  | _ =>
      if String.eqb gap "" then opening +:+ join "," partial +:+ closing
      else
        let indent := stepback +:+ gap in
        opening +:+ String newline indent
          +:+ join ("," +:+ String newline indent) partial
          +:+ String newline stepback +:+ closing
  end.

(** A member [key: value] of an object. *)
Definition member (gap : string) (k s : string) : string :=
  QuoteJSONString k +:+ (if String.eqb gap "" then ":" else ": ") +:+ s.

(** A byte of a buffer as a number. *)
Definition byte_number (b : byte) : Z := Z.of_N (Byte.to_N b).

(** SerializeJSONProperty: [None] is [undefined] (the property is left
    out of an object and printed as [null] in an array). A buffer is
    serialized through its [toJSON], as [{type: "Buffer", data: [...]}]. *)
Fixpoint SerializeJSONProperty (gap indent : string) (v : jsvalue) {struct v}
    : option string :=
  let inner := indent +:+ gap in
  match v with
  | VUndefined => None
  | VNull => Some "null"
  | VBool b => Some (Boolean_toString b)
  | VNumber z => Some (Number_toString z)
  | VString s => Some (QuoteJSONString s)
  | VBuffer data =>
      Some (wrap_members gap indent "{" "}"
              [ member gap "type" (QuoteJSONString "Buffer");
                member gap "data"
                  (wrap_members gap inner "[" "]"
                     (map (fun b => Number_toString (byte_number b)) data)) ])
  | VArray items =>
      let fix elements (l : list jsvalue) : list string :=
        match l with
        | [] => []
        | x :: l' => default "null" (SerializeJSONProperty gap inner x) :: elements l'
        end in
      Some (wrap_members gap indent "[" "]" (elements items))
  | VObject props =>
      let fix members (l : list (string * jsvalue)) : list string :=
        match l with
        | [] => []
        | (k, x) :: l' =>
            match SerializeJSONProperty gap inner x with
            | Some s => member gap k s :: members l'
            | None => members l'
            end
        end in
      Some (wrap_members gap indent "{" "}" (members props))
  end.

(** [JSON.stringify(v)]. *)
Definition JSON_stringify (v : jsvalue) : option string := SerializeJSONProperty "" "" v.

(** [JSON.stringify(v, null, 2)]. *)
Definition JSON_stringify_pretty (v : jsvalue) : option string :=
  SerializeJSONProperty "  " "" v.

(** ** URLSearchParams *)

(** The bytes the application/x-www-form-urlencoded serializer leaves
    alone: ASCII letters and digits, and [*], [-], [.], [_]. *)
Definition urlencoded_safe (c : ascii) : bool :=
  let n := N_of_ascii c in
  ((48 <=? n) && (n <=? 57) || (65 <=? n) && (n <=? 90) || (97 <=? n) && (n <=? 122)
   || (n =? 42) || (n =? 45) || (n =? 46) || (n =? 95))%N.

Definition urlencode_byte (c : ascii) : string :=
  let n := N_of_ascii c in
  if urlencoded_safe c then String c ""
  else if (n =? 32)%N then "+"
  else String "%" (String (hex_digit true (n / 16)) (String (hex_digit true (n mod 16)) "")).

Fixpoint urlencode (s : string) : string :=
  match s with
  | EmptyString => ""
  | String c s' => urlencode_byte c +:+ urlencode s'
  end.

(** [URLSearchParams.prototype.toString] on the list of appended pairs. *)
Definition URLSearchParams_toString (params : list (string * string)) : string :=
  join "&" (map (fun p => urlencode p.1 +:+ "=" +:+ urlencode p.2) params).

(** The value of a hexadecimal digit. *)
Definition hex_value (c : ascii) : option N :=
  let n := N_of_ascii c in
  if ((48 <=? n) && (n <=? 57))%N then Some (n - 48)%N
  else if ((65 <=? n) && (n <=? 70))%N then Some (n - 55)%N
  else if ((97 <=? n) && (n <=? 102))%N then Some (n - 87)%N
  else None.

(** The decoding the parser of application/x-www-form-urlencoded applies
    to a name or a value: a plus sign is a space, and a percent sign
    followed by two hexadecimal digits is the byte they spell. *)
Fixpoint urldecode (s : string) : string :=
  match s with
  | EmptyString => ""
  | String c rest =>
      if Ascii.eqb c "+" then String " " (urldecode rest)
      else if Ascii.eqb c "%" then
        match rest with
        | String h (String l rest') =>
            match hex_value h, hex_value l with
            | Some a, Some b => String (ascii_of_N (16 * a + b)) (urldecode rest')
            | _, _ => String c (urldecode rest)
            end
        | _ => String c (urldecode rest)
        end
      else String c (urldecode rest)
  end.

(** [s.split(sep)] for a separator of one character. *)
Fixpoint split_on (sep : ascii) (s : string) : list string :=
  match s with
  | EmptyString => [""]
  | String c rest =>
      if Ascii.eqb c sep then "" :: split_on sep rest
      else
        match split_on sep rest with
        | first :: others => String c first :: others
        | [] => [String c ""]
        end
  end.

(** A sequence cut at its first [sep]: what is before, and what is after
    (nothing, when there is no [sep]). *)
Fixpoint cut (sep : ascii) (s : string) : string * string :=
  match s with
  | EmptyString => ("", "")
  | String c rest =>
      if Ascii.eqb c sep then ("", rest)
      else (String c (cut sep rest).1, (cut sep rest).2)
  end.

(** The parser of application/x-www-form-urlencoded, which
    [new URLSearchParams(queryString)] runs. *)
Definition URLSearchParams_parse (input : string) : list (string * string) :=
  map (fun sequence => (urldecode (cut "=" sequence).1, urldecode (cut "=" sequence).2))
      (List.filter (fun sequence => negb (String.eqb sequence "")) (split_on "&" input)).

(** No character of [s] is [sep]. *)
Fixpoint free_of (sep : ascii) (s : string) : bool :=
  match s with
  | EmptyString => true
  | String c rest => negb (Ascii.eqb c sep) && free_of sep rest
  end.

(** The serialized pair of a parameter. *)
Definition pair_text (p : string * string) : string := urlencode p.1 +:+ "=" +:+ urlencode p.2.

(** ** Effects: a trace of outside calls, and exceptions *)

(** What a [throw] carries: an instance of [Error] with its [message], or
    any other value, kept as what [String(value)] makes of it. *)
Inductive thrown : Type :=
| ErrorInstance (message : string)
| OtherValue (rendering : string).

(** How a computation ends. *)
Inductive Outcome (A : Type) : Type :=
| Returned (a : A)
| Thrown (e : thrown).
Arguments Returned {A} a.
Arguments Thrown {A} e.

(** The body handed to [fetch]: a buffer or a string. *)
Inductive BodyInit : Type :=
| BodyBuffer (data : list byte)
| BodyString (s : string).

(** The [options] object of [makeRequest]; [body] is [None] when the
    property is not set. *)
Record RequestInit : Type := {
  method : string;
  headers : gmap string string;
  body : option BodyInit
}.

(** What [fetch] resolves to: the status, and what [response.json()]
    does (it returns the parsed body or throws). *)
Record Response : Type := {
  status : Z;
  json : Outcome jsvalue
}.

(** [response.ok], as the Fetch standard defines it: a status from 200
    to 299. *)
Definition ok (response : Response) : bool :=
  (200 <=? status response) && (status response <=? 299).

(** The calls that leave the process. *)
Inductive Event : Type :=
| ReadFile (path : string)
| Fetch (url : string) (options : RequestInit).

(** A computation: the outside calls it made, in order, and how it ended. *)
Record IO (A : Type) : Type := mkIO {
  trace : list Event;
  outcome : Outcome A
}.
Arguments mkIO {A} trace outcome.
Arguments trace {A} i.
Arguments outcome {A} i.

#[export] Instance IO_ret : MRet IO := fun A a => mkIO [] (Returned a).

#[export] Instance IO_bind : MBind IO := fun A B f m =>
  match outcome m with
  | Returned a => mkIO (trace m ++ trace (f a))%list (outcome (f a))
  | Thrown e => mkIO (trace m) (Thrown e)
  end.

Definition throw {A : Type} (e : thrown) : IO A := mkIO [] (Thrown e).

(** [try { block } catch (error) { handler }]. *)
Definition try_catch {A : Type} (block : IO A) (handler : thrown -> IO A) : IO A :=
  match outcome block with
  | Returned a => block
  | Thrown e => mkIO (trace block ++ trace (handler e))%list (outcome (handler e))
  end.

(** ** The protocol's types *)

(** One item of a result's [content]; [text] is [None] when the property
    holds [undefined]. *)
Record TextContent : Type := {
  type : string;
  text : option string
}.

(** The result of a tool call; [isError] is [None] when the property is
    absent. *)
Record CallToolResult : Type := {
  content : list TextContent;
  isError : option bool
}.

(** The argument bag of an invocation, each property at the type the
    handler's casts give it; a property is [None] when the bag does not
    have it. A property that holds [null] and a [limit] that is not an
    integer are not of this type: [Wire.bag] below has them. *)
Module Args.
Record t : Type := {
  file_path : option string;
  mime_type : option string;
  folder_id : option string;
  file_type : option string;
  limit : option Z;
  token : option string;
  asset_id : option string;
  parent_id : option string;
  name_filter : option string;
  is_trash : option bool;
  name : option string;
  project_type : option string
}.

(** The bag [{}]. *)
Definition empty : t := {|
  file_path := None; mime_type := None; folder_id := None; file_type := None;
  limit := None; token := None; asset_id := None; parent_id := None;
  name_filter := None; is_trash := None; name := None; project_type := None
|}.

(** The bag with one property replaced ([None] removes it). *)
Definition with_file_path (v : option string) (a : t) : t :=
  {| file_path := v; mime_type := mime_type a; folder_id := folder_id a;
     file_type := file_type a; limit := limit a; token := token a;
     asset_id := asset_id a; parent_id := parent_id a; name_filter := name_filter a;
     is_trash := is_trash a; name := name a; project_type := project_type a |}.
Definition with_mime_type (v : option string) (a : t) : t :=
  {| file_path := file_path a; mime_type := v; folder_id := folder_id a;
     file_type := file_type a; limit := limit a; token := token a;
     asset_id := asset_id a; parent_id := parent_id a; name_filter := name_filter a;
     is_trash := is_trash a; name := name a; project_type := project_type a |}.
Definition with_folder_id (v : option string) (a : t) : t :=
  {| file_path := file_path a; mime_type := mime_type a; folder_id := v;
     file_type := file_type a; limit := limit a; token := token a;
     asset_id := asset_id a; parent_id := parent_id a; name_filter := name_filter a;
     is_trash := is_trash a; name := name a; project_type := project_type a |}.
Definition with_file_type (v : option string) (a : t) : t :=
  {| file_path := file_path a; mime_type := mime_type a; folder_id := folder_id a;
     file_type := v; limit := limit a; token := token a;
     asset_id := asset_id a; parent_id := parent_id a; name_filter := name_filter a;
     is_trash := is_trash a; name := name a; project_type := project_type a |}.
Definition with_limit (v : option Z) (a : t) : t :=
  {| file_path := file_path a; mime_type := mime_type a; folder_id := folder_id a;
     file_type := file_type a; limit := v; token := token a;
     asset_id := asset_id a; parent_id := parent_id a; name_filter := name_filter a;
     is_trash := is_trash a; name := name a; project_type := project_type a |}.
Definition with_token (v : option string) (a : t) : t :=
  {| file_path := file_path a; mime_type := mime_type a; folder_id := folder_id a;
     file_type := file_type a; limit := limit a; token := v;
     asset_id := asset_id a; parent_id := parent_id a; name_filter := name_filter a;
     is_trash := is_trash a; name := name a; project_type := project_type a |}.
Definition with_parent_id (v : option string) (a : t) : t :=
  {| file_path := file_path a; mime_type := mime_type a; folder_id := folder_id a;
     file_type := file_type a; limit := limit a; token := token a;
     asset_id := asset_id a; parent_id := v; name_filter := name_filter a;
     is_trash := is_trash a; name := name a; project_type := project_type a |}.
Definition with_name_filter (v : option string) (a : t) : t :=
  {| file_path := file_path a; mime_type := mime_type a; folder_id := folder_id a;
     file_type := file_type a; limit := limit a; token := token a;
     asset_id := asset_id a; parent_id := parent_id a; name_filter := v;
     is_trash := is_trash a; name := name a; project_type := project_type a |}.
Definition with_is_trash (v : option bool) (a : t) : t :=
  {| file_path := file_path a; mime_type := mime_type a; folder_id := folder_id a;
     file_type := file_type a; limit := limit a; token := token a;
     asset_id := asset_id a; parent_id := parent_id a; name_filter := name_filter a;
     is_trash := v; name := name a; project_type := project_type a |}.
Definition with_project_type (v : option string) (a : t) : t :=
  {| file_path := file_path a; mime_type := mime_type a; folder_id := folder_id a;
     file_type := file_type a; limit := limit a; token := token a;
     asset_id := asset_id a; parent_id := parent_id a; name_filter := name_filter a;
     is_trash := is_trash a; name := name a; project_type := v |}.
End Args.

(** [request.params]: the name of the tool and the argument mapping of
    the invocation, for an invocation that has one ([Wire.request] below
    is the invocation that may have none). *)
Record CallToolRequest : Type := {
  params_name : string;
  params_arguments : Args.t
}.

(** ** The tool catalog *)

(** One entry of a schema's [properties]. *)
Record Property : Type := {
  property : string;
  property_type : string;
  property_description : string;
  enum : option (list string);
  minimum : option Z;
  maximum : option Z;
  default_value : option string
}.

Record InputSchema : Type := {
  properties : list Property;
  required : list string
}.

Module Tool.
Record t : Type := {
  name : string;
  description : string;
  inputSchema : InputSchema
}.
End Tool.

(** A property with a type and a description only. *)
Definition plain (p ty d : string) : Property :=
  {| property := p; property_type := ty; property_description := d;
     enum := None; minimum := None; maximum := None; default_value := None |}.

(** A string property restricted to an enumeration. *)
Definition enumerated (p d : string) (values : list string) (dflt : option string) : Property :=
  {| property := p; property_type := "string"; property_description := d;
     enum := Some values; minimum := None; maximum := None; default_value := dflt |}.

(** A number property with bounds. *)
Definition bounded (p d : string) (lo hi : Z) : Property :=
  {| property := p; property_type := "number"; property_description := d;
     enum := None; minimum := Some lo; maximum := Some hi; default_value := None |}.

Definition tools : list Tool.t := [
  (* Assets Tools *)
  {| Tool.name := "upload_asset";
     Tool.description :=
       "Upload a media file (image, video, or audio) to HeyGen. Provide the file path and the file will be uploaded and return an asset ID for future use.";
     Tool.inputSchema := {|
       properties := [
         plain "file_path" "string" "Path to the file to upload";
         enumerated "mime_type"
           "MIME type of the file (e.g., image/png, image/jpeg, audio/mpeg, video/mp4, video/webm)"
           ["image/png"; "image/jpeg"; "audio/mpeg"; "video/mp4"; "video/webm"] None ];
       required := ["file_path"; "mime_type"] |} |};
  {| Tool.name := "list_assets";
     Tool.description :=
       "Retrieve a paginated list of all assets (images, audios, videos) created under your HeyGen account. Supports filtering by folder, file type, and pagination.";
     Tool.inputSchema := {|
       properties := [
         plain "folder_id" "string"
           "Unique identifier of the folder to retrieve the assets from. Can be retrieved from the List Folders endpoint.";
         enumerated "file_type" "Type of the asset to retrieve (audio, video, or image)"
           ["audio"; "video"; "image"] None;
         bounded "limit"
           "Maximum number of assets to return in a single response. Accepts values from 0 to 100."
           0 100;
         plain "token" "string"
           "Pagination token used to retrieve the next set of results. This token is returned in the response and can be included in the next request to continue listing remaining assets." ];
       required := [] |} |};
  {| Tool.name := "delete_asset";
     Tool.description := "Delete a specific asset by its unique asset ID from HeyGen.";
     Tool.inputSchema := {|
       properties := [ plain "asset_id" "string" "The unique ID of the asset to delete" ];
       required := ["asset_id"] |} |};
  (* Folders Tools *)
  {| Tool.name := "list_folders";
     Tool.description :=
       "Retrieve a paginated list of all folders created under your HeyGen account. Supports filtering by parent folder, name search, trash status, and pagination.";
     Tool.inputSchema := {|
       properties := [
         bounded "limit"
           "Maximum number of folders to return in a single response. Accepts values from 0 to 100."
           0 100;
         plain "parent_id" "string" "Filter folders by their parent folder ID.";
         plain "name_filter" "string" "Search for folders by full or partial name.";
         plain "is_trash" "boolean"
           "Whether to retrieve folders that are in the trash. Returns only the deleted folders if set to true.";
         plain "token" "string"
           "Pagination token used to retrieve the next set of results. This token is returned in the response and can be included in the next request to continue listing remaining folders." ];
       required := [] |} |};
  {| Tool.name := "create_folder";
     Tool.description :=
       "Create a new folder in your HeyGen account. Can create top-level folders or subfolders by specifying a parent_id.";
     Tool.inputSchema := {|
       properties := [
         plain "name" "string" "Name of the folder.";
         enumerated "project_type"
           "Type of project associated with the folder. The instant_avatar and asset project types are Enterprise-Only. Defaults to 'mixed'."
           ["video_translate"; "instant_avatar"; "video"; "asset"; "brand_kit"; "mixed"]
           (Some "mixed");
         plain "parent_id" "string"
           "Unique identifier of the parent folder. Leave empty to create a top-level folder, or provide an existing folder's ID to create a subfolder under it." ];
       required := [] |} |};
  {| Tool.name := "update_folder";
     Tool.description := "Update (rename) an existing folder by its folder ID.";
     Tool.inputSchema := {|
       properties := [
         plain "folder_id" "string" "The unique ID of the folder to update";
         plain "name" "string" "The new name for the folder" ];
       required := ["folder_id"; "name"] |} |};
  {| Tool.name := "trash_folder";
     Tool.description :=
       "Move a folder to trash (delete) by its unique folder ID. The folder can be restored later.";
     Tool.inputSchema := {|
       properties := [ plain "folder_id" "string" "The unique ID of the folder to trash" ];
       required := ["folder_id"] |} |};
  {| Tool.name := "restore_folder";
     Tool.description :=
       "Restore a previously trashed folder by its unique folder ID, returning it to its original location.";
     Tool.inputSchema := {|
       properties := [ plain "folder_id" "string" "The unique ID of the folder to restore" ];
       required := ["folder_id"] |} |}
].

(** The handler of [ListToolsRequestSchema]. *)
Definition ListToolsRequest_handler : list Tool.t := tools.

(** ** Startup *)

(** How the top of the module ends: the process has exited, with what it
    wrote to the diagnostic stream and its exit status, or the module goes
    on with the captured [API_KEY]. *)
Inductive Startup : Type :=
| Exited (stderr : list string) (code : Z)
| Started (API_KEY : string).

(** [const API_KEY = process.env.HEYGEN_API_KEY; if (!API_KEY) { ... }] *)
Definition startup (env : gmap string string) : Startup :=
  match env !! "HEYGEN_API_KEY" with
  | Some API_KEY =>
      if negb (truthy (VString API_KEY))
      then Exited ["Error: HEYGEN_API_KEY environment variable is required"] 1
      else Started API_KEY
  | None => Exited ["Error: HEYGEN_API_KEY environment variable is required"] 1
  end.

(** ** API endpoints *)

Definition UPLOAD_BASE_URL : string := "https://upload.heygen.com/v1".
Definition API_BASE_URL : string := "https://api.heygen.com/v1".

(** ** The dispatcher's switch *)

Inductive Case : Type :=
| case_upload_asset
| case_list_assets
| case_delete_asset
| case_list_folders
| case_create_folder
| case_update_folder
| case_trash_folder
| case_restore_folder
| case_default.

#[export] Instance Case_eq_dec : EqDecision Case.
Proof. solve_decision. Defined.

(** [switch (name)]: the first [case] whose label is strictly equal to
    [name], the [default] otherwise. *)
Definition switch (name : string) : Case :=
  if String.eqb name "upload_asset" then case_upload_asset
  else if String.eqb name "list_assets" then case_list_assets
  else if String.eqb name "delete_asset" then case_delete_asset
  else if String.eqb name "list_folders" then case_list_folders
  else if String.eqb name "create_folder" then case_create_folder
  else if String.eqb name "update_folder" then case_update_folder
  else if String.eqb name "trash_folder" then case_trash_folder
  else if String.eqb name "restore_folder" then case_restore_folder
  else case_default.

(** [if (value) queryParams.append(key, value)] *)
Definition append_truthy (key : string) (value : option string)
    (queryParams : list (string * string)) : list (string * string) :=
  match value with
  | Some v => if truthy (VString v) then (queryParams ++ [(key, v)])%list else queryParams
  | None => queryParams
  end.

(** [if (value !== undefined) queryParams.append(key, value.toString())] *)
Definition append_defined {A : Type} (toString : A -> string) (key : string)
    (value : option A) (queryParams : list (string * string)) : list (string * string) :=
  match value with
  | Some v => (queryParams ++ [(key, toString v)])%list
  | None => queryParams
  end.

(** [queryString ? `${base}?${queryString}` : base] *)
Definition with_query (base : string) (queryParams : list (string * string)) : string :=
  let queryString := URLSearchParams_toString queryParams in
  if truthy (VString queryString) then base +:+ "?" +:+ queryString else base.

(** The query parameters of [list_assets]. *)
Definition list_assets_queryParams (args : Args.t) : list (string * string) :=
  let queryParams := [] in
  let queryParams := append_truthy "folder_id" (Args.folder_id args) queryParams in
  let queryParams := append_truthy "file_type" (Args.file_type args) queryParams in
  let queryParams := append_defined Number_toString "limit" (Args.limit args) queryParams in
  let queryParams := append_truthy "token" (Args.token args) queryParams in
  queryParams.

(** The query parameters of [list_folders]. *)
Definition list_folders_queryParams (args : Args.t) : list (string * string) :=
  let queryParams := [] in
  let queryParams := append_defined Number_toString "limit" (Args.limit args) queryParams in
  let queryParams := append_truthy "parent_id" (Args.parent_id args) queryParams in
  let queryParams := append_truthy "name_filter" (Args.name_filter args) queryParams in
  let queryParams := append_defined Boolean_toString "is_trash" (Args.is_trash args) queryParams in
  let queryParams := append_truthy "token" (Args.token args) queryParams in
  queryParams.

(** The request body of [create_folder]. *)
Definition create_folder_body (args : Args.t) : jsvalue :=
  let project_type := default "mixed" (Args.project_type args) in
  let body := [("project_type", VString project_type)] in
  let body :=
    match Args.name args with
    | Some name => if truthy (VString name) then (body ++ [("name", VString name)])%list else body
    | None => body
    end in
  let body :=
    match Args.parent_id args with
    | Some parent_id =>
        if truthy (VString parent_id) then (body ++ [("parent_id", VString parent_id)])%list
        else body
    | None => body
    end in
  VObject body.

(** A successful result: [{ content: [{ type: "text", text }] }]. *)
Definition text_result (text : option string) : CallToolResult :=
  {| content := [ {| type := "text"; text := text |} ]; isError := None |}.

(** A flagged result: [{ content: [{ type: "text", text }], isError: true }]. *)
Definition error_result (text : string) : CallToolResult :=
  {| content := [ {| type := "text"; text := Some text |} ]; isError := Some true |}.

(** [error instanceof Error ? error.message : String(error)] *)
Definition error_text (error : thrown) : string :=
  match error with
  | ErrorInstance message => message
  | OtherValue rendering => rendering
  end.

Section Server.

(** The credential captured at startup. *)
Variable API_KEY : string.

(** The file system: what [readFileSync] does on a path. *)
Variable readFileSync : string -> Outcome (list byte).

(** The network: what [fetch] resolves or rejects to. *)
Variable fetch : string -> RequestInit -> Outcome Response.

(** [readFileSync(file_path)]; without a path Node throws a [TypeError]
    before it touches the file system. *)
Definition read_file (file_path : option string) : IO (list byte) :=
  match file_path with
  | Some path => mkIO [ReadFile path] (readFileSync path)
  | None =>
      throw (ErrorInstance
        ("The " +:+ quoted "path" +:+ " argument must be of type string or an instance of Buffer or URL. Received undefined"))
  end.

(** [await fetch(url, options)] *)
Definition do_fetch (url : string) (options : RequestInit) : IO Response :=
  mkIO [Fetch url options] (fetch url options).

(** [await response.json()] *)
Definition response_json (response : Response) : IO jsvalue :=
  mkIO [] (json response).

(** Helper function to make API requests: the headers it builds. *)
Definition makeRequest_headers (body : jsvalue) (contentType : option string)
    : gmap string string :=
  let headers : gmap string string := {[ "X-Api-Key" := API_KEY ]} in
  let structured :=
    truthy body && String.eqb (typeof body) "object" && negb (Buffer_isBuffer body) in
  match contentType with
  | Some ct =>
      if truthy (VString ct) then <["Content-Type" := ct]> headers
      else if structured then <["Content-Type" := "application/json"]> headers
      else headers
  | None =>
      if structured then <["Content-Type" := "application/json"]> headers
      else headers
  end.

(** The [options] it hands to [fetch]. *)
Definition makeRequest_options (method : string) (body : jsvalue)
    (contentType : option string) : RequestInit :=
  {| method := method;
     headers := makeRequest_headers body contentType;
     body :=
       if truthy body then
         (* Handle different body types: Buffer (binary), string, or object (JSON) *)
         match body with
         | VBuffer data => Some (BodyBuffer data)
         | VString s => Some (BodyString s)
         | _ => BodyString <$> JSON_stringify body
         end
       else None |}.

(** The call itself, and what it makes of the response. *)
Definition makeRequest (url method : string) (body : jsvalue)
    (contentType : option string) : IO jsvalue :=
  let options := makeRequest_options method body contentType in
  response ← do_fetch url options;
  data ← response_json response;
  if negb (ok response) then
    throw (ErrorInstance
      ("API request failed: " +:+ Number_toString (status response) +:+ " - "
         +:+ default "undefined" (JSON_stringify data)))
  else mret data.

(** The [try] block of the call handler: the [switch] and its cases. *)
Definition dispatch (name : string) (args : Args.t) : IO CallToolResult :=
  match switch name with
  (* Assets operations *)
  | case_upload_asset =>
      let file_path := Args.file_path args in
      let mime_type := Args.mime_type args in
      (* Read the file as binary data *)
      fileBuffer ← read_file file_path;
      (* Upload the file to HeyGen *)
      result ← makeRequest (UPLOAD_BASE_URL +:+ "/asset") "POST" (VBuffer fileBuffer) mime_type;
      mret (text_result (JSON_stringify_pretty result))
  | case_list_assets =>
      let url := with_query (API_BASE_URL +:+ "/asset/list") (list_assets_queryParams args) in
      result ← makeRequest url "GET" VUndefined None;
      mret (text_result (JSON_stringify_pretty result))
  | case_delete_asset =>
      let asset_id := Args.asset_id args in
      result ← makeRequest (API_BASE_URL +:+ "/asset/" +:+ template asset_id +:+ "/delete")
                 "POST" VUndefined None;
      mret (text_result (JSON_stringify_pretty result))
  (* Folders operations *)
  | case_list_folders =>
      let url := with_query (API_BASE_URL +:+ "/folders") (list_folders_queryParams args) in
      result ← makeRequest url "GET" VUndefined None;
      mret (text_result (JSON_stringify_pretty result))
  | case_create_folder =>
      result ← makeRequest (API_BASE_URL +:+ "/folders/create") "POST"
                 (create_folder_body args) None;
      mret (text_result (JSON_stringify_pretty result))
  | case_update_folder =>
      let folder_id := Args.folder_id args in
      let name := Args.name args in
      result ← makeRequest (API_BASE_URL +:+ "/folders/" +:+ template folder_id) "POST"
                 (VObject [("name", of_optional name)]) (Some "application/json");
      mret (text_result (JSON_stringify_pretty result))
  | case_trash_folder =>
      let folder_id := Args.folder_id args in
      result ← makeRequest (API_BASE_URL +:+ "/folders/" +:+ template folder_id +:+ "/trash")
                 "POST" VUndefined None;
      mret (text_result (JSON_stringify_pretty result))
  | case_restore_folder =>
      let folder_id := Args.folder_id args in
      result ← makeRequest (API_BASE_URL +:+ "/folders/" +:+ template folder_id +:+ "/restore")
                 "POST" VUndefined None;
      mret (text_result (JSON_stringify_pretty result))
  | case_default => mret (error_result ("Unknown tool: " +:+ name))
  end.

(** Handler for calling tools: the [try] block, and the [catch] that
    turns what was thrown into a flagged result. *)
Definition CallToolRequest_handler (request : CallToolRequest) : IO CallToolResult :=
  let name := params_name request in
  let args := params_arguments request in
  try_catch (dispatch name args)
    (fun error => mret (error_result ("Error: " +:+ error_text error))).

End Server.

(** ** The process *)

(** What a run of the process shows: the lines on the diagnostic stream,
    the exit status when the process exited by itself, and what the call
    handler did for each tool invocation it was given. *)
Record Run : Type := {
  stderr : list string;
  exit_code : option Z;
  handled : list (IO CallToolResult)
}.

(** The module from top to bottom: the credential guard, then [main],
    which connects the server; the server calls the handler once for each
    tool invocation. *)
Definition run (env : gmap string string)
    (readFileSync : string -> Outcome (list byte))
    (fetch : string -> RequestInit -> Outcome Response)
    (requests : list CallToolRequest) : Run :=
  match startup env with
  | Exited lines code => {| stderr := lines; exit_code := Some code; handled := [] |}
  | Started API_KEY =>
      {| stderr := ["HeyGen MCP Server running on stdio"];
         exit_code := None;
         handled := map (CallToolRequest_handler API_KEY readFileSync fetch) requests |}
  end.

(** ** Vocabulary of the statements *)

(** The last step of every case: wrap the adapter's result. *)
Definition wrap (result : jsvalue) : IO CallToolResult :=
  mret (text_result (JSON_stringify_pretty result)).

(** [haystack.includes(needle)] *)
Fixpoint includes (needle haystack : string) : bool :=
  String.prefix needle haystack
  || match haystack with
     | EmptyString => false
     | String _ rest => includes needle rest
     end.

(** A structured value that is not binary: an object or an array. *)
Definition structured (v : jsvalue) : bool :=
  match v with
  | VArray _ | VObject _ => true
  | _ => false
  end.

(** The [Fetch] events of a trace. *)
Definition fetches (events : list Event) : list (string * RequestInit) :=
  omap (fun e => match e with Fetch url options => Some (url, options) | ReadFile _ => None end)
       events.

(** A result is flagged: its content is one text message and [isError] is
    set. *)
Definition flagged (result : CallToolResult) : Prop :=
  isError result = Some true /\
  exists message, content result = [ {| type := "text"; text := Some message |} ].

(** The message of the error [makeRequest] throws on a non-success
    status. *)
Definition failure_message (response : Response) (data : jsvalue) : string :=
  "API request failed: " +:+ Number_toString (status response) +:+ " - "
    +:+ default "undefined" (JSON_stringify data).

(** The names the catalog is expected to list. *)
Definition tool_names : gset string :=
  {[ "upload_asset"; "list_assets"; "delete_asset"; "list_folders"; "create_folder";
     "update_folder"; "trash_folder"; "restore_folder" ]}.

(** The schema entry of a property of a tool. *)
Definition schema_property (tool prop : string) : option Property :=
  t ← List.find (fun t => String.eqb (Tool.name t) tool) tools;
  List.find (fun p => String.eqb (property p) prop) (properties (Tool.inputSchema t)).

(** Whether a schema entry accepts a string (its [enum], when it has
    one) or a number (its [minimum] and [maximum], when it has them). *)
Definition accepts_string (p : Property) (s : string) : bool :=
  match enum p with
  | Some values => bool_decide (s ∈ values)
  | None => true
  end.

Definition accepts_number (p : Property) (z : Z) : bool :=
  match minimum p with Some lo => lo <=? z | None => true end
  && match maximum p with Some hi => z <=? hi | None => true end.

(** ** Sample worlds *)

(** A file system with no file at all. *)
Definition no_file (path : string) : Outcome (list byte) :=
  Thrown (ErrorInstance ("ENOENT: no such file or directory, open '" +:+ path +:+ "'")).

(** A file system with one file. *)
Definition one_file (at_path : string) (data : list byte) (path : string)
    : Outcome (list byte) :=
  if String.eqb path at_path then Returned data else no_file path.

(** A network that answers every request with the same response. *)
Definition answers (response : Response) (url : string) (options : RequestInit)
    : Outcome Response :=
  Returned response.

(** A network that refuses every connection. *)
Definition refuses (url : string) (options : RequestInit) : Outcome Response :=
  Thrown (ErrorInstance ("request to " +:+ url +:+ " failed, reason: connect ECONNREFUSED")).

(** Status 404 with the body [{ error: "not found" }]. *)
Definition not_found : Response :=
  {| status := 404; json := Returned (VObject [("error", VString "not found")]) |}.

(** Status 502 with a body that is not JSON. *)
Definition bad_gateway : Response :=
  {| status := 502;
     json := Thrown (ErrorInstance "Unexpected token < in JSON at position 0") |}.

(** Status 200 with the body [{ error: null, data: { id: "a1" } }]. *)
Definition success : Response :=
  {| status := 200;
     json := Returned (VObject [("error", VNull); ("data", VObject [("id", VString "a1")])]) |}.

(** The first bytes of a PNG file. *)
Definition png_bytes : list byte := [x89; x50; x4e; x47].

(** ** More vocabulary *)

(** [args[key]]: the property of the argument bag under a name. *)
Definition argument (key : string) (args : Args.t) : jsvalue :=
  if String.eqb key "file_path" then of_optional (Args.file_path args)
  else if String.eqb key "mime_type" then of_optional (Args.mime_type args)
  else if String.eqb key "folder_id" then of_optional (Args.folder_id args)
  else if String.eqb key "file_type" then of_optional (Args.file_type args)
  else if String.eqb key "limit" then from_option VNumber VUndefined (Args.limit args)
  else if String.eqb key "token" then of_optional (Args.token args)
  else if String.eqb key "asset_id" then of_optional (Args.asset_id args)
  else if String.eqb key "parent_id" then of_optional (Args.parent_id args)
  else if String.eqb key "name_filter" then of_optional (Args.name_filter args)
  else if String.eqb key "is_trash" then from_option VBool VUndefined (Args.is_trash args)
  else if String.eqb key "name" then of_optional (Args.name args)
  else if String.eqb key "project_type" then of_optional (Args.project_type args)
  else VUndefined.

(** A known tool whose file, if it uploads one, can be read. *)
Definition reaches_the_network (readFileSync : string -> Outcome (list byte))
    (request : CallToolRequest) : Prop :=
  switch (params_name request) <> case_default /\
  (switch (params_name request) = case_upload_asset ->
   exists path data,
     Args.file_path (params_arguments request) = Some path /\
     readFileSync path = Returned data).

(** What a JSON parser reads after the opening quote of a string, up to
    the closing quote: the escapes [QuoteJSONString] writes are read
    back, and what follows the closing quote is left alone. *)
Fixpoint read_json_string (s : string) : string :=
  match s with
  | EmptyString => ""
  | String c rest =>
      if Ascii.eqb c dquote then ""
      else if Ascii.eqb c "\" then
        match rest with
        | String e rest' =>
            if Ascii.eqb e "b" then String "008" (read_json_string rest')
            else if Ascii.eqb e "t" then String "009" (read_json_string rest')
            else if Ascii.eqb e "n" then String "010" (read_json_string rest')
            else if Ascii.eqb e "f" then String "012" (read_json_string rest')
            else if Ascii.eqb e "r" then String "013" (read_json_string rest')
            else if Ascii.eqb e "u" then
              match rest' with
              | String h1 (String h2 (String h3 (String h4 rest''))) =>
                  match hex_value h1, hex_value h2, hex_value h3, hex_value h4 with
                  | Some 0%N, Some 0%N, Some a, Some b =>
                      String (ascii_of_N (16 * a + b)) (read_json_string rest'')
                  | _, _, _, _ => String e (read_json_string rest')
                  end
              | _ => String e (read_json_string rest')
              end
            else String e (read_json_string rest')
        | EmptyString => ""
        end
      else String c (read_json_string rest)
  end.

(** [JSON.parse] on the text of a string literal followed by anything. *)
Definition JSON_read_string (text : string) : option string :=
  match text with
  | String c rest => if Ascii.eqb c dquote then Some (read_json_string rest) else None
  | EmptyString => None
  end.

(** ** The earlier revision of the server ([src/unnamed/part_000])

    The same module before uploads and list filters were written: the
    adapter has no case for buffers, [upload_asset] only explains what to
    do, the list tools take no argument and [create_folder] takes
    [project_type] alone. The switch has the same labels. *)
Module Earlier.

Definition tools : list Tool.t := [
  (* Assets Tools *)
  {| Tool.name := "upload_asset";
     Tool.description :=
       "Upload a media file (image, video, or audio) to HeyGen. Provide the file path and the file will be uploaded and return an asset ID for future use.";
     Tool.inputSchema := {|
       properties := [
         plain "file_path" "string" "Path to the file to upload";
         enumerated "mime_type"
           "MIME type of the file (e.g., image/png, image/jpeg, audio/mpeg, video/mp4, video/webm)"
           ["image/png"; "image/jpeg"; "audio/mpeg"; "video/mp4"; "video/webm"] None ];
       required := ["file_path"; "mime_type"] |} |};
  {| Tool.name := "list_assets";
     Tool.description :=
       "Retrieve a paginated list of all assets (images, audios, videos) created under your HeyGen account.";
     Tool.inputSchema := {| properties := []; required := [] |} |};
  {| Tool.name := "delete_asset";
     Tool.description := "Delete a specific asset by its unique asset ID from HeyGen.";
     Tool.inputSchema := {|
       properties := [ plain "asset_id" "string" "The unique ID of the asset to delete" ];
       required := ["asset_id"] |} |};
  (* Folders Tools *)
  {| Tool.name := "list_folders";
     Tool.description :=
       "Retrieve a paginated list of all folders created under your HeyGen account.";
     Tool.inputSchema := {| properties := []; required := [] |} |};
  {| Tool.name := "create_folder";
     Tool.description := "Create a new folder in your HeyGen account.";
     Tool.inputSchema := {|
       properties := [
         {| property := "project_type"; property_type := "string";
            property_description := "Type of project folder (e.g., 'mixed')";
            enum := None; minimum := None; maximum := None;
            default_value := Some "mixed" |} ];
       required := [] |} |};
  {| Tool.name := "update_folder";
     Tool.description := "Update (rename) an existing folder by its folder ID.";
     Tool.inputSchema := {|
       properties := [
         plain "folder_id" "string" "The unique ID of the folder to update";
         plain "name" "string" "The new name for the folder" ];
       required := ["folder_id"; "name"] |} |};
  {| Tool.name := "trash_folder";
     Tool.description :=
       "Move a folder to trash (delete) by its unique folder ID. The folder can be restored later.";
     Tool.inputSchema := {|
       properties := [ plain "folder_id" "string" "The unique ID of the folder to trash" ];
       required := ["folder_id"] |} |};
  {| Tool.name := "restore_folder";
     Tool.description :=
       "Restore a previously trashed folder by its unique folder ID, returning it to its original location.";
     Tool.inputSchema := {|
       properties := [ plain "folder_id" "string" "The unique ID of the folder to restore" ];
       required := ["folder_id"] |} |}
].

Section Server.

Variable API_KEY : string.
Variable fetch : string -> RequestInit -> Outcome Response.

(** Helper function to make API requests: the headers it builds. *)
Definition makeRequest_headers (body : jsvalue) (contentType : option string)
    : gmap string string :=
  let headers : gmap string string := {[ "X-Api-Key" := API_KEY ]} in
  let structured := truthy body && String.eqb (typeof body) "object" in
  match contentType with
  | Some ct =>
      if truthy (VString ct) then <["Content-Type" := ct]> headers
      else if structured then <["Content-Type" := "application/json"]> headers
      else headers
  | None =>
      if structured then <["Content-Type" := "application/json"]> headers
      else headers
  end.

(** The [options] it hands to [fetch]. *)
Definition makeRequest_options (method : string) (body : jsvalue)
    (contentType : option string) : RequestInit :=
  {| method := method;
     headers := makeRequest_headers body contentType;
     body :=
       if truthy body then
         match body with
         | VString s => Some (BodyString s)
         | _ => BodyString <$> JSON_stringify body
         end
       else None |}.

(** The call itself, and what it makes of the response. *)
Definition makeRequest (url method : string) (body : jsvalue)
    (contentType : option string) : IO jsvalue :=
  let options := makeRequest_options method body contentType in
  response ← do_fetch fetch url options;
  data ← response_json response;
  if negb (ok response) then
    throw (ErrorInstance
      ("API request failed: " +:+ Number_toString (status response) +:+ " - "
         +:+ default "undefined" (JSON_stringify data)))
  else mret data.

(** The text [upload_asset] answers with. *)
Definition upload_instructions (file_path mime_type : option string) : string :=
  join (String newline "") [
    "To upload an asset, you need to:";
    "1. Read the file at: " +:+ template file_path;
    "2. Send a POST request to: " +:+ UPLOAD_BASE_URL +:+ "/asset";
    "3. Set Content-Type header to: " +:+ template mime_type;
    "4. Send the raw binary data as the request body";
    "";
    "Note: File upload requires reading binary data which is not yet implemented in this tool.";
    "You can use the following curl command as reference:";
    "";
    "curl -X POST " +:+ quoted (UPLOAD_BASE_URL +:+ "/asset") +:+ " \";
    "  -H " +:+ quoted ("X-Api-Key: " +:+ API_KEY) +:+ " \";
    "  -H " +:+ quoted ("Content-Type: " +:+ template mime_type) +:+ " \";
    "  --data-binary " +:+ quoted ("@" +:+ template file_path)
  ].

(** The [try] block of the call handler. *)
Definition dispatch (name : string) (args : Args.t) : IO CallToolResult :=
  match switch name with
  (* Assets operations *)
  | case_upload_asset =>
      let file_path := Args.file_path args in
      let mime_type := Args.mime_type args in
      mret (text_result (Some (upload_instructions file_path mime_type)))
  | case_list_assets =>
      result ← makeRequest (API_BASE_URL +:+ "/asset/list") "GET" VUndefined None;
      mret (text_result (JSON_stringify_pretty result))
  | case_delete_asset =>
      let asset_id := Args.asset_id args in
      result ← makeRequest (API_BASE_URL +:+ "/asset/" +:+ template asset_id +:+ "/delete")
                 "POST" VUndefined None;
      mret (text_result (JSON_stringify_pretty result))
  (* Folders operations *)
  | case_list_folders =>
      result ← makeRequest (API_BASE_URL +:+ "/folders") "GET" VUndefined None;
      mret (text_result (JSON_stringify_pretty result))
  | case_create_folder =>
      let project_type := default "mixed" (Args.project_type args) in
      result ← makeRequest (API_BASE_URL +:+ "/folders/create") "POST"
                 (VObject [("project_type", VString project_type)]) None;
      mret (text_result (JSON_stringify_pretty result))
  | case_update_folder =>
      let folder_id := Args.folder_id args in
      let name := Args.name args in
      result ← makeRequest (API_BASE_URL +:+ "/folders/" +:+ template folder_id) "POST"
                 (VObject [("name", of_optional name)]) (Some "application/json");
      mret (text_result (JSON_stringify_pretty result))
  | case_trash_folder =>
      let folder_id := Args.folder_id args in
      result ← makeRequest (API_BASE_URL +:+ "/folders/" +:+ template folder_id +:+ "/trash")
                 "POST" VUndefined None;
      mret (text_result (JSON_stringify_pretty result))
  | case_restore_folder =>
      let folder_id := Args.folder_id args in
      result ← makeRequest (API_BASE_URL +:+ "/folders/" +:+ template folder_id +:+ "/restore")
                 "POST" VUndefined None;
      mret (text_result (JSON_stringify_pretty result))
  | case_default => mret (error_result ("Unknown tool: " +:+ name))
  end.

(** Handler for calling tools. *)
Definition CallToolRequest_handler (request : CallToolRequest) : IO CallToolResult :=
  let name := params_name request in
  let args := params_arguments request in
  try_catch (dispatch name args)
    (fun error => mret (error_result ("Error: " +:+ error_text error))).

End Server.

End Earlier.

(** ** The handler on everything the protocol can deliver

    [CallToolRequest] above is an invocation whose argument object is
    there and whose properties, when present, hold values of the types the
    casts of the handler declare, numbers being integers. The protocol
    promises less. The [arguments] member of a request is optional, so
    [args] may be [undefined]. A cast checks nothing at run time, and the
    optional types of the casts do not keep [null] out, so a property may
    hold [null]. A [limit] is any number. [Wire] is the same handler on
    these inputs too. A number is kept as the text
    [Number.prototype.toString] gives for it, since printing it is all
    the handler does with a number: the text of an integer up to
    2^53 - 1 in magnitude is its decimal digits, the text of 10^21 is
    [1e+21], the text of 2.5 is [2.5]. *)
Module Wire.

(** What a property of the argument object holds: nothing (the property
    is absent), [null], or a value of the declared type. *)
Inductive held (A : Type) : Type :=
| Absent
| Null
| Held (a : A).
Arguments Absent {A}.
Arguments Null {A}.
Arguments Held {A} a.

(** A number, as the text [toString] gives for it. Every number has
    one; no statement depends on which texts are those of numbers. *)
Record number : Type := { printed : string }.

(** The number an integer is, when a number can hold it exactly and
    prints it digit by digit: up to 2^53 - 1 in magnitude. *)
Definition integer (z : Z) : number := {| printed := Number_toString z |}.

(** The argument object. *)
Record bag : Type := {
  file_path : held string;
  mime_type : held string;
  folder_id : held string;
  file_type : held string;
  limit : held number;
  token : held string;
  asset_id : held string;
  parent_id : held string;
  name_filter : held string;
  is_trash : held bool;
  name : held string;
  project_type : held string
}.

(** The object [{}]. *)
Definition empty : bag := {|
  file_path := Absent; mime_type := Absent; folder_id := Absent; file_type := Absent;
  limit := Absent; token := Absent; asset_id := Absent; parent_id := Absent;
  name_filter := Absent; is_trash := Absent; name := Absent; project_type := Absent
|}.

(** The object with one property replaced. *)
Definition with_file_type (v : held string) (a : bag) : bag :=
  {| file_path := file_path a; mime_type := mime_type a; folder_id := folder_id a;
     file_type := v; limit := limit a; token := token a;
     asset_id := asset_id a; parent_id := parent_id a; name_filter := name_filter a;
     is_trash := is_trash a; name := name a; project_type := project_type a |}.
Definition with_limit (v : held number) (a : bag) : bag :=
  {| file_path := file_path a; mime_type := mime_type a; folder_id := folder_id a;
     file_type := file_type a; limit := v; token := token a;
     asset_id := asset_id a; parent_id := parent_id a; name_filter := name_filter a;
     is_trash := is_trash a; name := name a; project_type := project_type a |}.
Definition with_token (v : held string) (a : bag) : bag :=
  {| file_path := file_path a; mime_type := mime_type a; folder_id := folder_id a;
     file_type := file_type a; limit := limit a; token := v;
     asset_id := asset_id a; parent_id := parent_id a; name_filter := name_filter a;
     is_trash := is_trash a; name := name a; project_type := project_type a |}.
Definition with_project_type (v : held string) (a : bag) : bag :=
  {| file_path := file_path a; mime_type := mime_type a; folder_id := folder_id a;
     file_type := file_type a; limit := limit a; token := token a;
     asset_id := asset_id a; parent_id := parent_id a; name_filter := name_filter a;
     is_trash := is_trash a; name := name a; project_type := v |}.

(** [request.params]; [params_arguments] is [None] when the member is
    absent. *)
Record request : Type := {
  params_name : string;
  params_arguments : option bag
}.

(** A property as a value. *)
Definition value (h : held string) : jsvalue :=
  match h with
  | Absent => VUndefined
  | Null => VNull
  | Held s => VString s
  end.

(** A property inside a template literal. *)
Definition template (h : held string) : string :=
  match h with
  | Absent => "undefined"
  | Null => "null"
  | Held s => s
  end.

(** A property handed to a parameter that is only tested for truth:
    [null] is as good as nothing there. *)
Definition optional (h : held string) : option string :=
  match h with
  | Held s => Some s
  | Absent | Null => None
  end.

(** [const { first, ... } = args]: destructuring [undefined] throws. *)
Definition destructure (first : string) (args : option bag) : IO bag :=
  match args with
  | Some properties => mret properties
  | None =>
      throw (ErrorInstance
        ("Cannot destructure property '" +:+ first +:+ "' of 'args' as it is undefined."))
  end.

(** [if (value) queryParams.append(key, value)] *)
Definition append_truthy (key : string) (h : held string)
    (queryParams : list (string * string)) : list (string * string) :=
  if truthy (value h) then (queryParams ++ [(key, template h)])%list else queryParams.

(** [if (value !== undefined) queryParams.append(key, value.toString())]:
    [null] is not [undefined], and has no [toString]. *)
Definition append_defined {A : Type} (toString : A -> string) (key : string)
    (h : held A) (queryParams : list (string * string)) : IO (list (string * string)) :=
  match h with
  | Absent => mret queryParams
  | Null => throw (ErrorInstance "Cannot read properties of null (reading 'toString')")
  | Held v => mret (queryParams ++ [(key, toString v)])%list
  end.

(** The query parameters of [list_assets]. *)
Definition list_assets_queryParams (args : bag) : IO (list (string * string)) :=
  let queryParams := [] in
  let queryParams := append_truthy "folder_id" (folder_id args) queryParams in
  let queryParams := append_truthy "file_type" (file_type args) queryParams in
  queryParams ← append_defined printed "limit" (limit args) queryParams;
  let queryParams := append_truthy "token" (token args) queryParams in
  mret queryParams.

(** The query parameters of [list_folders]. *)
Definition list_folders_queryParams (args : bag) : IO (list (string * string)) :=
  let queryParams := [] in
  queryParams ← append_defined printed "limit" (limit args) queryParams;
  let queryParams := append_truthy "parent_id" (parent_id args) queryParams in
  let queryParams := append_truthy "name_filter" (name_filter args) queryParams in
  queryParams ← append_defined Boolean_toString "is_trash" (is_trash args) queryParams;
  let queryParams := append_truthy "token" (token args) queryParams in
  mret queryParams.

(** The request body of [create_folder]: the default stands in for an
    absent [project_type] only. *)
Definition create_folder_body (args : bag) : jsvalue :=
  let project_type :=
    match project_type args with
    | Absent => VString "mixed"
    | held_value => value held_value
    end in
  let body := [("project_type", project_type)] in
  let body :=
    if truthy (value (name args)) then (body ++ [("name", value (name args))])%list
    else body in
  let body :=
    if truthy (value (parent_id args))
    then (body ++ [("parent_id", value (parent_id args))])%list
    else body in
  VObject body.

Section Server.

Variable API_KEY : string.
Variable readFileSync : string -> Outcome (list byte).
Variable fetch : string -> RequestInit -> Outcome Response.

(** [readFileSync(file_path)]; Node throws a [TypeError] on a path that
    is not a string, before it touches the file system. *)
Definition read_file (file_path : held string) : IO (list byte) :=
  match file_path with
  | Held path => mkIO [ReadFile path] (readFileSync path)
  | Absent =>
      throw (ErrorInstance
        ("The " +:+ quoted "path" +:+ " argument must be of type string or an instance of Buffer or URL. Received undefined"))
  | Null =>
      throw (ErrorInstance
        ("The " +:+ quoted "path" +:+ " argument must be of type string or an instance of Buffer or URL. Received null"))
  end.

(** The [try] block of the call handler: the [switch] and its cases. *)
Definition dispatch (name : string) (args : option bag) : IO CallToolResult :=
  match switch name with
  (* Assets operations *)
  | case_upload_asset =>
      args ← destructure "file_path" args;
      (* Read the file as binary data *)
      fileBuffer ← read_file (file_path args);
      (* Upload the file to HeyGen *)
      result ← makeRequest API_KEY fetch (UPLOAD_BASE_URL +:+ "/asset") "POST"
                 (VBuffer fileBuffer) (optional (mime_type args));
      mret (text_result (JSON_stringify_pretty result))
  | case_list_assets =>
      args ← destructure "folder_id" args;
      queryParams ← list_assets_queryParams args;
      let url := with_query (API_BASE_URL +:+ "/asset/list") queryParams in
      result ← makeRequest API_KEY fetch url "GET" VUndefined None;
      mret (text_result (JSON_stringify_pretty result))
  | case_delete_asset =>
      args ← destructure "asset_id" args;
      result ← makeRequest API_KEY fetch
                 (API_BASE_URL +:+ "/asset/" +:+ template (asset_id args) +:+ "/delete")
                 "POST" VUndefined None;
      mret (text_result (JSON_stringify_pretty result))
  (* Folders operations *)
  | case_list_folders =>
      args ← destructure "limit" args;
      queryParams ← list_folders_queryParams args;
      let url := with_query (API_BASE_URL +:+ "/folders") queryParams in
      result ← makeRequest API_KEY fetch url "GET" VUndefined None;
      mret (text_result (JSON_stringify_pretty result))
  | case_create_folder =>
      args ← destructure "name" args;
      result ← makeRequest API_KEY fetch (API_BASE_URL +:+ "/folders/create") "POST"
                 (create_folder_body args) None;
      mret (text_result (JSON_stringify_pretty result))
  | case_update_folder =>
      args ← destructure "folder_id" args;
      result ← makeRequest API_KEY fetch
                 (API_BASE_URL +:+ "/folders/" +:+ template (folder_id args)) "POST"
                 (VObject [("name", value (Wire.name args))]) (Some "application/json");
      mret (text_result (JSON_stringify_pretty result))
  | case_trash_folder =>
      args ← destructure "folder_id" args;
      result ← makeRequest API_KEY fetch
                 (API_BASE_URL +:+ "/folders/" +:+ template (folder_id args) +:+ "/trash")
                 "POST" VUndefined None;
      mret (text_result (JSON_stringify_pretty result))
  | case_restore_folder =>
      args ← destructure "folder_id" args;
      result ← makeRequest API_KEY fetch
                 (API_BASE_URL +:+ "/folders/" +:+ template (folder_id args) +:+ "/restore")
                 "POST" VUndefined None;
      mret (text_result (JSON_stringify_pretty result))
  | case_default => mret (error_result ("Unknown tool: " +:+ name))
  end.

(** Handler for calling tools. *)
Definition CallToolRequest_handler (request : request) : IO CallToolResult :=
  let name := params_name request in
  let args := params_arguments request in
  try_catch (dispatch name args)
    (fun error => mret (error_result ("Error: " +:+ error_text error))).

End Server.

End Wire.

(** A property of the declared type, or none. *)
Definition given {A : Type} (o : option A) : Wire.held A :=
  match o with
  | Some a => Wire.Held a
  | None => Wire.Absent
  end.

(** An argument bag of the typed kind, as the object it is; its [limit]
    is the number that prints as the decimal digits of the integer. *)
Definition of_args (args : Args.t) : Wire.bag := {|
  Wire.file_path := given (Args.file_path args);
  Wire.mime_type := given (Args.mime_type args);
  Wire.folder_id := given (Args.folder_id args);
  Wire.file_type := given (Args.file_type args);
  Wire.limit := given (Wire.integer <$> Args.limit args);
  Wire.token := given (Args.token args);
  Wire.asset_id := given (Args.asset_id args);
  Wire.parent_id := given (Args.parent_id args);
  Wire.name_filter := given (Args.name_filter args);
  Wire.is_trash := given (Args.is_trash args);
  Wire.name := given (Args.name args);
  Wire.project_type := given (Args.project_type args)
|}.

(** An invocation of the typed kind, as the request it is. *)
Definition of_request (request : CallToolRequest) : Wire.request :=
  {| Wire.params_name := params_name request;
     Wire.params_arguments := Some (of_args (params_arguments request)) |}.

(** ** Vocabulary on argument objects *)

(** The integers a number holds exactly, which print digit by digit:
    those up to 2^53 - 1 in magnitude. *)
Definition safe_integer (z : Z) : Prop := Z.abs z <= 9007199254740991.

(** Numbers that do not print as the decimal digits of an integer:
    10^21, 2^63 and 2.5. *)
Definition ten_to_the_21 : Wire.number := {| Wire.printed := "1e+21" |}.

(** An invocation that made no outside call and got a flagged result. *)
Definition refused_before_any_call (io : IO CallToolResult) : Prop :=
  trace io = [] /\
  exists message, outcome io = Returned (error_result ("Error: " +:+ message)).

(** No [toString] of the case is called on [null]. *)
Definition prints (case : Case) (args : Wire.bag) : Prop :=
  match case with
  | case_list_assets => Wire.limit args <> Wire.Null
  | case_list_folders => Wire.limit args <> Wire.Null /\ Wire.is_trash args <> Wire.Null
  | _ => True
  end.

Example stringify_nested :
  JSON_stringify (VObject [("a", VArray [VNumber 1; VUndefined]); ("b", VUndefined);
                           ("c", VString "x y")])
  = Some ("{" +:+ quoted "a" +:+ ":[1,null]," +:+ quoted "c" +:+ ":" +:+ quoted "x y" +:+ "}").
Proof. reflexivity. Qed.

Example urlencode_sample : urlencode "a b&c=d/é" = "a+b%26c%3Dd%2F%C3%A9".
Proof. reflexivity. Qed.

Example stringify_pretty_sample :
  JSON_stringify_pretty (VObject [("data", VArray [VNumber 1; VNull]); ("list", VArray [])])
  = Some ("{" +:+ String newline "  " +:+ quoted "data" +:+ ": ["
            +:+ String newline "    1," +:+ String newline "    null"
            +:+ String newline "  ]," +:+ String newline "  " +:+ quoted "list" +:+ ": []"
            +:+ String newline "}").
Proof. reflexivity. Qed.

Example parse_sample :
  URLSearchParams_parse "folder_id=f+1&limit=0&token=a%26b"
  = [("folder_id", "f 1"); ("limit", "0"); ("token", "a&b")].
Proof. reflexivity. Qed.

Example switch_sample : switch "trash_folder" = case_trash_folder /\ switch "Trash_folder" = case_default.
Proof. split; reflexivity. Qed.

(** ** Substrings *)

Lemma prefix_app (b c : string) : String.prefix b (b +:+ c) = true.
Proof.
  induction b as [|x b IH]; simpl; [by destruct c|].
  by destruct (Ascii.ascii_dec x x).
Qed.

Lemma includes_unfold (needle haystack : string) :
  includes needle haystack
  = String.prefix needle haystack
    || match haystack with
       | EmptyString => false
       | String _ rest => includes needle rest
       end.
Proof. by destruct haystack. Qed.

Lemma includes_app_r (a b : string) (needle : string) :
  includes needle b = true -> includes needle (a +:+ b) = true.
Proof.
  intros H. induction a as [|x a IH]; [done|].
  change (String x a +:+ b) with (String x (a +:+ b)).
  rewrite includes_unfold, IH. apply orb_true_r.
Qed.

Lemma includes_app_l (b c : string) : includes b (b +:+ c) = true.
Proof. by rewrite includes_unfold, prefix_app. Qed.

(** A text includes each piece it was put together from. *)
Lemma includes_middle (a b c : string) : includes b (a +:+ b +:+ c) = true.
Proof. apply includes_app_r, includes_app_l. Qed.

Lemma append_empty_r (s : string) : s +:+ "" = s.
Proof.
  induction s as [|c s IH]; [done|].
  change (String c s +:+ "") with (String c (s +:+ "")). by rewrite IH.
Qed.

Lemma includes_refl (b : string) : includes b b = true.
Proof. rewrite <- (append_empty_r b) at 2. apply includes_app_l. Qed.

(** ** The monad *)

Section Effects.

Context {A B : Type}.

Lemma bind_returned (m : IO A) (f : A -> IO B) (a : A) :
  outcome m = Returned a ->
  m ≫= f = mkIO (trace m ++ trace (f a)) (outcome (f a)).
Proof. intros H. unfold mbind, IO_bind. by rewrite H. Qed.

Lemma bind_thrown (m : IO A) (f : A -> IO B) (e : thrown) :
  outcome m = Thrown e -> m ≫= f = mkIO (trace m) (Thrown e).
Proof. intros H. unfold mbind, IO_bind. by rewrite H. Qed.

(** A [try] whose handler returns never throws. *)
Lemma try_catch_returns (block : IO A) (handler : thrown -> A) :
  exists a, outcome (try_catch block (fun e => mret (handler e))) = Returned a.
Proof.
  unfold try_catch. destruct (outcome block) as [a|e] eqn:H.
  - exists a. by rewrite H.
  - by exists (handler e).
Qed.

Lemma try_catch_thrown (block : IO A) (handler : thrown -> A) (e : thrown) :
  outcome block = Thrown e ->
  try_catch block (fun e => mret (handler e)) = mkIO (trace block) (Returned (handler e)).
Proof.
  intros H. unfold try_catch. rewrite H. simpl. by rewrite app_nil_r.
Qed.

Lemma try_catch_returned (block : IO A) (handler : thrown -> IO A) (a : A) :
  outcome block = Returned a -> try_catch block handler = block.
Proof. intros H. unfold try_catch. by rewrite H. Qed.

End Effects.

(** ** The transport adapter *)

Section Transport.

Variable API_KEY : string.
Variable fetch : string -> RequestInit -> Outcome Response.

(** [makeRequest] makes exactly one outside call, the [fetch]. *)
Lemma makeRequest_trace url method body contentType :
  trace (makeRequest API_KEY fetch url method body contentType)
  = [Fetch url (makeRequest_options API_KEY method body contentType)].
Proof.
  unfold makeRequest, do_fetch, response_json, mbind, IO_bind; simpl.
  destruct (fetch _ _) as [response|e]; simpl; [|done].
  destruct (json response) as [data|e]; simpl; [|done].
  by destruct (ok response).
Qed.

(** How [makeRequest] ends, by what the network did. *)
Lemma makeRequest_outcome url method body contentType :
  outcome (makeRequest API_KEY fetch url method body contentType)
  = match fetch url (makeRequest_options API_KEY method body contentType) with
    | Thrown e => Thrown e
    | Returned response =>
        match json response with
        | Thrown e => Thrown e
        | Returned data =>
            if ok response then Returned data
            else Thrown (ErrorInstance
                   ("API request failed: " +:+ Number_toString (status response) +:+ " - "
                      +:+ default "undefined" (JSON_stringify data)))
        end
    end.
Proof.
  unfold makeRequest, do_fetch, response_json, mbind, IO_bind; simpl.
  destruct (fetch _ _) as [response|e]; simpl; [|done].
  destruct (json response) as [data|e]; simpl; [|done].
  by destruct (ok response).
Qed.

(** Every request carries the credential. *)
Lemma makeRequest_headers_key body contentType :
  makeRequest_headers API_KEY body contentType !! "X-Api-Key" = Some API_KEY.
Proof.
  unfold makeRequest_headers.
  destruct contentType as [ct|]; repeat case_match;
    rewrite ?lookup_insert_ne by done; by rewrite lookup_singleton_eq.
Qed.

Lemma structured_stringify body :
  structured body = true -> exists s, JSON_stringify body = Some s.
Proof. destruct body; try done; intros _; unfold JSON_stringify; simpl; eauto. Qed.

Lemma structured_headers body contentType :
  structured body = true -> truthy_string contentType = false ->
  makeRequest_headers API_KEY body contentType !! "Content-Type" = Some "application/json".
Proof.
  intros Hs Hc. unfold makeRequest_headers.
  destruct body; try done; destruct contentType as [ct|]; simpl in *;
    try (destruct (String.eqb ct ""); [simpl|done]); by rewrite lookup_insert_eq.
Qed.

Lemma unstructured_headers body contentType :
  typeof body <> "object" \/ Buffer_isBuffer body = true \/ truthy body = false ->
  truthy_string contentType = false ->
  makeRequest_headers API_KEY body contentType !! "Content-Type" = None.
Proof.
  intros Hb Hc. unfold makeRequest_headers.
  assert (truthy body && String.eqb (typeof body) "object" && negb (Buffer_isBuffer body)
          = false) as ->.
  { destruct Hb as [H|[H|H]].
    - apply String.eqb_neq in H. rewrite H. by rewrite andb_false_r.
    - rewrite H. by rewrite andb_false_r.
    - by rewrite H. }
  destruct contentType as [ct|]; simpl in *;
    try (destruct (String.eqb ct ""); [simpl|done]); by rewrite lookup_singleton_ne.
Qed.

(** C2 (as amended). Every call of [makeRequest] sends one request, with
    the given method, and the request carries the credential in the
    [X-Api-Key] header. A content type that is given and not empty is the
    [Content-Type] header, verbatim. With no content type, or the empty
    string: an object or an array as body sets the header to
    [application/json], and any other body (a string, a buffer, nothing)
    leaves the header unset. Whatever the content type, an object or an
    array is sent as its JSON text, a buffer and a non-empty string are
    sent as they are, and with no body or the empty string no body is
    set. *)
Theorem makeRequest_builds_request url verb payload contentType :
  exists options,
    trace (makeRequest API_KEY fetch url verb payload contentType) = [Fetch url options] /\
    method options = verb /\
    headers options !! "X-Api-Key" = Some API_KEY /\
    (forall ct, contentType = Some ct -> ct <> "" ->
       headers options !! "Content-Type" = Some ct) /\
    (contentType = None \/ contentType = Some "" ->
       (structured payload = true ->
          headers options !! "Content-Type" = Some "application/json") /\
       (structured payload = false -> headers options !! "Content-Type" = None)) /\
    (structured payload = true ->
       exists s, JSON_stringify payload = Some s /\ body options = Some (BodyString s)) /\
    (forall s, payload = VString s -> s <> "" -> body options = Some (BodyString s)) /\
    (forall data, payload = VBuffer data -> body options = Some (BodyBuffer data)) /\
    (payload = VUndefined \/ payload = VString "" -> body options = None).
Proof.
  exists (makeRequest_options API_KEY verb payload contentType).
  split; [apply makeRequest_trace|]. split; [done|].
  split; [apply makeRequest_headers_key|]. split; [|split]; [| |repeat split].
  - intros ct -> Hct. simpl. unfold makeRequest_headers. simpl.
    apply String.eqb_neq in Hct. rewrite Hct. simpl. by rewrite lookup_insert_eq.
  - intros Hc.
    assert (truthy_string contentType = false) as Hf by (by destruct Hc as [->| ->]).
    split; intros Hs; simpl.
    + by apply structured_headers.
    + apply unstructured_headers; [|done].
      destruct payload; simpl in *; try done; (by left) || (by right; left) || (by right; right).
  - intros Hs. destruct (structured_stringify _ Hs) as [s Hj]. exists s. split; [done|].
    unfold makeRequest_options; cbn [body].
    destruct payload; try done; cbn [truthy]; by rewrite Hj.
  - intros s -> Hs. simpl. apply String.eqb_neq in Hs. by rewrite Hs.
  - by intros data ->.
  - by intros [-> | ->].
Qed.

End Transport.

(** ** The dispatcher *)

Section Dispatcher.

Variable API_KEY : string.
Variable readFileSync : string -> Outcome (list byte).
Variable fetch : string -> RequestInit -> Outcome Response.

Abbreviation makeRequest' := (makeRequest API_KEY fetch).
Abbreviation dispatch' := (dispatch API_KEY readFileSync fetch).
Abbreviation handler := (CallToolRequest_handler API_KEY readFileSync fetch).

Lemma wrap_outcome (m : IO jsvalue) :
  outcome (m ≫= wrap)
  = match outcome m with
    | Returned result => Returned (text_result (JSON_stringify_pretty result))
    | Thrown e => Thrown e
    end.
Proof. unfold mbind, IO_bind. by destruct (outcome m). Qed.

Lemma wrap_trace (m : IO jsvalue) : trace (m ≫= wrap) = trace m.
Proof.
  unfold mbind, IO_bind. destruct (outcome m); simpl; [|done]. by rewrite app_nil_r.
Qed.

(** Every case but [upload_asset] and the default is one call of the
    adapter followed by the wrapping. *)
Lemma dispatch_one_request name args :
  switch name <> case_default -> switch name <> case_upload_asset ->
  exists url method body contentType,
    dispatch' name args = makeRequest' url method body contentType ≫= wrap.
Proof.
  intros Hd Hu. unfold dispatch. destruct (switch name); try done; eauto 6.
Qed.

(** [upload_asset] reads the file first. *)
Lemma dispatch_upload_asset name args :
  switch name = case_upload_asset ->
  dispatch' name args
  = read_file readFileSync (Args.file_path args) ≫= fun fileBuffer =>
      makeRequest' (UPLOAD_BASE_URL +:+ "/asset") "POST" (VBuffer fileBuffer)
        (Args.mime_type args) ≫= wrap.
Proof. intros H. unfold dispatch. by rewrite H. Qed.

Lemma dispatch_default name args :
  switch name = case_default ->
  dispatch' name args = mret (error_result ("Unknown tool: " +:+ name)).
Proof. intros H. unfold dispatch. by rewrite H. Qed.

Lemma error_result_flagged message : flagged (error_result message).
Proof. split; [done|]. by exists message. Qed.

(** The [catch] adds no outside call. *)
Lemma handler_trace request :
  trace (handler request)
  = trace (dispatch' (params_name request) (params_arguments request)).
Proof.
  unfold CallToolRequest_handler, try_catch.
  destruct (outcome (dispatch' _ _)); simpl; [done|]. by rewrite app_nil_r.
Qed.

(** What the handler returns, by how the [try] block ended. *)
Lemma handler_outcome request :
  outcome (handler request)
  = match outcome (dispatch' (params_name request) (params_arguments request)) with
    | Returned result => Returned result
    | Thrown e => Returned (error_result ("Error: " +:+ error_text e))
    end.
Proof.
  unfold CallToolRequest_handler, try_catch.
  by destruct (outcome (dispatch' _ _)) eqn:H; simpl.
Qed.

(** The handler returns, whatever happens. *)
Lemma handler_returns request : exists result, outcome (handler request) = Returned result.
Proof. rewrite handler_outcome. destruct (outcome (dispatch' _ _)); eauto. Qed.

(** C1. Whatever fails while a tool invocation is handled, the handler
    returns: it never throws. An unknown tool name gives the flagged
    result [Unknown tool: name]; anything thrown inside the [try] block
    (by the file system, by [fetch], by [response.json()], by the
    adapter on a non-success status) gives the flagged result
    [Error: message]; in particular a file that cannot be read during
    [upload_asset] does, and then no request is sent. A flagged result
    has one text message as content and [isError] set. A process that
    has started does not exit whatever the invocations do: each of them
    is handled and gets a result. *)
Theorem handler_catches_every_failure (request : CallToolRequest) :
  (exists result,
     outcome (handler request) = Returned result /\
     (switch (params_name request) = case_default ->
        result = error_result ("Unknown tool: " +:+ params_name request) /\ flagged result) /\
     (forall e,
        outcome (dispatch' (params_name request) (params_arguments request)) = Thrown e ->
        result = error_result ("Error: " +:+ error_text e) /\ flagged result) /\
     (forall path e,
        switch (params_name request) = case_upload_asset ->
        Args.file_path (params_arguments request) = Some path ->
        readFileSync path = Thrown e ->
        result = error_result ("Error: " +:+ error_text e) /\
        trace (handler request) = [ReadFile path])) /\
  (forall env requests,
     startup env = Started API_KEY ->
     exit_code (run env readFileSync fetch requests) = None /\
     length (handled (run env readFileSync fetch requests)) = length requests /\
     Forall (fun h => exists result, outcome h = Returned result)
       (handled (run env readFileSync fetch requests))).
Proof.
  split.
  - destruct (handler_returns request) as [result Hout]. exists result.
    split; [done|]. rewrite handler_outcome in Hout.
    destruct request as [name args]; simpl in *. split; [|split].
    + intros Hd. rewrite (dispatch_default _ _ Hd) in Hout. simpl in Hout.
      injection Hout as <-. split; [done | apply error_result_flagged].
    + intros e He. rewrite He in Hout. injection Hout as <-.
      split; [done | apply error_result_flagged].
    + intros path e Hu Hp Hr. rewrite handler_trace. simpl.
      revert Hout. rewrite (dispatch_upload_asset _ _ Hu), Hp.
      unfold read_file. rewrite (bind_thrown _ _ e) by done. simpl.
      intros Hout. by injection Hout as <-.
  - intros env requests Hstart. unfold run. rewrite Hstart. simpl.
    split; [done|]. split; [by rewrite length_map|].
    apply Forall_forall. intros h (request' & -> & _)%list_elem_of_fmap.
    apply handler_returns.
Qed.

(** Every request the handler sends was built by [makeRequest]. *)
Lemma handler_fetches request url options :
  (url, options) ∈ fetches (trace (handler request)) ->
  exists verb payload contentType,
    options = makeRequest_options API_KEY verb payload contentType.
Proof.
  rewrite handler_trace. destruct request as [name args]; simpl.
  destruct (decide (switch name = case_default)) as [Hd|Hd].
  { rewrite (dispatch_default _ _ Hd). simpl. by intros ?%elem_of_nil. }
  destruct (decide (switch name = case_upload_asset)) as [Hu|Hu].
  - rewrite (dispatch_upload_asset _ _ Hu).
    unfold read_file. destruct (Args.file_path args) as [path|]; [|by intros ?%elem_of_nil].
    destruct (readFileSync path) as [data|e] eqn:Hr.
    + rewrite (bind_returned _ _ data) by done. simpl.
      rewrite wrap_trace, makeRequest_trace. simpl.
      intros Hin%list_elem_of_singleton. injection Hin as -> ->. eauto.
    + rewrite (bind_thrown _ _ e) by done. simpl. by intros ?%elem_of_nil.
  - destruct (dispatch_one_request name args Hd Hu) as (u & verb & payload & ct & ->).
    rewrite wrap_trace, makeRequest_trace. simpl.
    intros Hin%list_elem_of_singleton. injection Hin as -> ->. eauto.
Qed.

(** C5 (as amended). An [upload_asset] invocation whose file can be read
    reads the file, then sends one request: a POST to the upload endpoint
    whose body is the buffer that was read, byte for byte (so of the same
    length, with no JSON wrapping). When [mime_type] is not empty the
    [Content-Type] header of the request is the given [mime_type]; when
    it is the empty string the request has no [Content-Type] header. *)
Theorem upload_asset_sends_the_file args path mime data :
  Args.file_path args = Some path ->
  Args.mime_type args = Some mime ->
  readFileSync path = Returned data ->
  exists options,
    trace (handler {| params_name := "upload_asset"; params_arguments := args |})
    = [ReadFile path; Fetch (UPLOAD_BASE_URL +:+ "/asset") options] /\
    method options = "POST" /\
    body options = Some (BodyBuffer data) /\
    (forall sent, body options = Some (BodyBuffer sent) -> length sent = length data) /\
    (mime <> "" -> headers options !! "Content-Type" = Some mime) /\
    (mime = "" -> headers options !! "Content-Type" = None) /\
    headers options !! "X-Api-Key" = Some API_KEY.
Proof.
  intros Hp Hm Hr.
  exists (makeRequest_options API_KEY "POST" (VBuffer data) (Some mime)).
  split; [|split; [done|split; [done|split; [|split; [|split]]]]].
  - rewrite handler_trace; simpl.
    rewrite (dispatch_upload_asset "upload_asset" args eq_refl).
    rewrite Hp, Hm. unfold read_file. rewrite (bind_returned _ _ data) by done.
    simpl. by rewrite wrap_trace, makeRequest_trace.
  - simpl. intros sent Hsent. by injection Hsent as <-.
  - intros Hne. simpl. unfold makeRequest_headers. simpl.
    apply String.eqb_neq in Hne. rewrite Hne. simpl. by rewrite lookup_insert_eq.
  - intros ->. by apply unstructured_headers; [right; left|].
  - apply makeRequest_headers_key.
Qed.

Lemma ok_iff response : ok response = true <-> 200 <= status response <= 299.
Proof. unfold ok. rewrite andb_true_iff, !Z.leb_le. done. Qed.

(** C6 (as amended). When the body of the response parses as JSON: on a
    status outside 200..299 [makeRequest] throws an [Error] whose message
    is [API request failed: status - body], the body being the JSON text
    of the parsed value, so that the message includes both; on a status
    in 200..299 it returns the parsed body. When [response.json()]
    throws, [makeRequest] throws the same, whatever the status. Through
    the dispatcher, a network that answers 404 with the body
    [{ error: "not found" }] gives, for every known tool (the file being
    readable for [upload_asset]), the flagged result whose text is that
    message after [Error: ], and the text includes [404] and the
    serialized body. *)
Theorem makeRequest_raises_on_status :
  (forall url verb payload contentType response data,
     fetch url (makeRequest_options API_KEY verb payload contentType) = Returned response ->
     json response = Returned data ->
     (~ 200 <= status response <= 299 ->
        outcome (makeRequest' url verb payload contentType)
        = Thrown (ErrorInstance (failure_message response data)) /\
        includes (Number_toString (status response)) (failure_message response data) = true /\
        includes (default "undefined" (JSON_stringify data)) (failure_message response data)
        = true) /\
     (200 <= status response <= 299 ->
        outcome (makeRequest' url verb payload contentType) = Returned data)) /\
  (forall url verb payload contentType response e,
     fetch url (makeRequest_options API_KEY verb payload contentType) = Returned response ->
     json response = Thrown e ->
     outcome (makeRequest' url verb payload contentType) = Thrown e) /\
  (forall request,
     (forall url options, fetch url options = Returned not_found) ->
     switch (params_name request) <> case_default ->
     (switch (params_name request) = case_upload_asset ->
        exists path data,
          Args.file_path (params_arguments request) = Some path /\
          readFileSync path = Returned data) ->
     exists message,
       outcome (handler request) = Returned (error_result message) /\
       message = "Error: API request failed: 404 - {" +:+ quoted "error" +:+ ":"
                   +:+ quoted "not found" +:+ "}" /\
       includes "404" message = true /\
       includes ("{" +:+ quoted "error" +:+ ":" +:+ quoted "not found" +:+ "}") message = true /\
       flagged (error_result message)).
Proof.
  split.
  - intros url verb payload contentType response data Hf Hj. split.
    + intros Hs. rewrite makeRequest_outcome, Hf, Hj.
      destruct (ok response) eqn:Hok; [by apply ok_iff in Hok|].
      split; [done|]. unfold failure_message. split.
      * apply (includes_middle "API request failed: ").
      * do 3 apply includes_app_r. apply includes_refl.
    + intros Hs. rewrite makeRequest_outcome, Hf, Hj.
      apply ok_iff in Hs. by rewrite Hs.
  - split; [intros url verb payload contentType response e Hf Hj;
            by rewrite makeRequest_outcome, Hf, Hj|].
    intros [name args] Hnet Hd Hfile; simpl in *.
    eexists. split; [|split; [reflexivity|split; [by vm_compute|split; [by vm_compute|]]]].
    + rewrite handler_outcome; simpl.
      destruct (decide (switch name = case_upload_asset)) as [Hu|Hu].
      * destruct (Hfile Hu) as (path & data & Hp & Hr).
        rewrite (dispatch_upload_asset _ _ Hu), Hp. unfold read_file.
        rewrite (bind_returned _ _ data) by done. simpl.
        by rewrite wrap_outcome, makeRequest_outcome, Hnet.
      * destruct (dispatch_one_request name args Hd Hu) as (u & verb & payload & ct & ->).
        by rewrite wrap_outcome, makeRequest_outcome, Hnet.
    + apply error_result_flagged.
Qed.

End Dispatcher.

(** ** Query strings *)

Lemma elem_of_append_truthy k v key value (queryParams : list (string * string)) :
  (k, v) ∈ append_truthy key value queryParams
  <-> (k, v) ∈ queryParams \/ (k = key /\ value = Some v /\ v <> "").
Proof.
  unfold append_truthy. destruct value as [s|]; simpl.
  - destruct (String.eqb s "") eqn:Hs; simpl.
    + apply String.eqb_eq in Hs as ->. naive_solver.
    + apply String.eqb_neq in Hs. rewrite elem_of_app, list_elem_of_singleton. naive_solver.
  - naive_solver.
Qed.

Lemma elem_of_append_defined {A} (toString : A -> string) k v key value
    (queryParams : list (string * string)) :
  (k, v) ∈ append_defined toString key value queryParams
  <-> (k, v) ∈ queryParams \/ (k = key /\ exists x, value = Some x /\ v = toString x).
Proof.
  unfold append_defined. destruct value as [x|]; simpl.
  - rewrite elem_of_app, list_elem_of_singleton. naive_solver.
  - naive_solver.
Qed.

(** An empty string is appended like no string. *)
Lemma append_truthy_empty key (queryParams : list (string * string)) :
  append_truthy key (Some "") queryParams = append_truthy key None queryParams.
Proof. done. Qed.

(** The serialization of a non-empty list of parameters is not empty. *)
Lemma URLSearchParams_toString_truthy (queryParams : list (string * string)) :
  queryParams <> [] -> truthy (VString (URLSearchParams_toString queryParams)) = true.
Proof.
  destruct queryParams as [|[k v] rest]; [done|]. intros _.
  unfold URLSearchParams_toString. simpl.
  destruct rest; simpl; by destruct (urlencode k).
Qed.

Lemma with_query_nil base : with_query base [] = base.
Proof. done. Qed.

Lemma with_query_cons base (queryParams : list (string * string)) :
  queryParams <> [] ->
  with_query base queryParams = base +:+ "?" +:+ URLSearchParams_toString queryParams.
Proof.
  intros H. unfold with_query. by rewrite (URLSearchParams_toString_truthy _ H).
Qed.

(** *** Decoding a query string *)

Lemma free_of_app sep a b : free_of sep (a +:+ b) = free_of sep a && free_of sep b.
Proof.
  induction a as [|c a IH]; [done|].
  change (String c a +:+ b) with (String c (a +:+ b)). simpl. rewrite IH.
  by rewrite andb_assoc.
Qed.

Lemma urlencode_byte_free c :
  free_of "&" (urlencode_byte c) = true /\ free_of "=" (urlencode_byte c) = true.
Proof. by destruct c as [[] [] [] [] [] [] [] []]. Qed.

Lemma urlencode_free s : free_of "&" (urlencode s) = true /\ free_of "=" (urlencode s) = true.
Proof.
  induction s as [|c s [IH1 IH2]]; [done|].
  change (urlencode (String c s)) with (urlencode_byte c +:+ urlencode s).
  rewrite !free_of_app, IH1, IH2. destruct (urlencode_byte_free c) as [-> ->]. done.
Qed.

Lemma urldecode_byte c rest :
  urldecode (urlencode_byte c +:+ rest) = String c (urldecode rest).
Proof. by destruct c as [[] [] [] [] [] [] [] []]. Qed.

Lemma append_assoc (a b c : string) : (a +:+ b) +:+ c = a +:+ (b +:+ c).
Proof.
  induction a as [|x a IH]; [done|].
  change (String x a +:+ b) with (String x (a +:+ b)).
  change (String x (a +:+ b) +:+ c) with (String x ((a +:+ b) +:+ c)).
  by rewrite IH.
Qed.

Lemma urldecode_urlencode s : urldecode (urlencode s) = s.
Proof.
  induction s as [|c s IH]; [done|].
  change (urlencode (String c s)) with (urlencode_byte c +:+ urlencode s).
  by rewrite urldecode_byte, IH.
Qed.

Lemma cut_app sep a b :
  free_of sep a = true -> cut sep (a +:+ String sep b) = (a, b).
Proof.
  induction a as [|c a IH]; simpl.
  - intros _. by rewrite Ascii.eqb_refl.
  - intros [Hc Ha]%andb_true_iff. apply negb_true_iff in Hc.
    change (String c a +:+ String sep b) with (String c (a +:+ String sep b)).
    simpl. rewrite Hc. by rewrite (IH Ha).
Qed.

Lemma split_on_free sep s : free_of sep s = true -> split_on sep s = [s].
Proof.
  induction s as [|c s IH]; [done|]. simpl.
  intros [Hc Hs]%andb_true_iff. apply negb_true_iff in Hc. by rewrite Hc, (IH Hs).
Qed.

Lemma split_on_app sep a b :
  free_of sep a = true -> split_on sep (a +:+ String sep b) = a :: split_on sep b.
Proof.
  induction a as [|c a IH]; simpl.
  - intros _. by rewrite Ascii.eqb_refl.
  - intros [Hc Ha]%andb_true_iff. apply negb_true_iff in Hc.
    change (String c a +:+ String sep b) with (String c (a +:+ String sep b)).
    simpl. by rewrite Hc, (IH Ha).
Qed.

Lemma split_on_join sep (parts : list string) :
  parts <> [] -> Forall (fun p => free_of sep p = true) parts ->
  split_on sep (join (String sep "") parts) = parts.
Proof.
  intros Hne Hall. induction Hall as [|p parts Hp Hall IH]; [done|].
  destruct parts as [|q parts]; [by apply split_on_free|].
  change (join (String sep "") (p :: q :: parts))
    with (p +:+ String sep "" +:+ join (String sep "") (q :: parts)).
  change (String sep "" +:+ join (String sep "") (q :: parts))
    with (String sep (join (String sep "") (q :: parts))).
  rewrite (split_on_app _ _ _ Hp). by rewrite IH.
Qed.

Lemma pair_text_free p : free_of "&" (pair_text p) = true.
Proof.
  unfold pair_text. rewrite !free_of_app.
  destruct (urlencode_free p.1) as [-> _], (urlencode_free p.2) as [-> _]. done.
Qed.

Lemma pair_text_nonempty p : negb (String.eqb (pair_text p) "") = true.
Proof. unfold pair_text. by destruct (urlencode p.1). Qed.

Lemma pair_text_parse p :
  (urldecode (cut "=" (pair_text p)).1, urldecode (cut "=" (pair_text p)).2) = p.
Proof.
  unfold pair_text. change ("=" +:+ urlencode p.2) with (String "=" (urlencode p.2)).
  rewrite cut_app by apply urlencode_free. simpl.
  rewrite !urldecode_urlencode. by destruct p.
Qed.

(** Parsing the serialization of a list of parameters gives the list
    back: names and values are encoded without loss, and no encoded name
    or value is taken for a separator. *)
Lemma URLSearchParams_parse_toString (queryParams : list (string * string)) :
  URLSearchParams_parse (URLSearchParams_toString queryParams) = queryParams.
Proof.
  unfold URLSearchParams_parse, URLSearchParams_toString.
  destruct queryParams as [|p rest]; [done|].
  change (fun p0 : string * string => urlencode p0.1 +:+ "=" +:+ urlencode p0.2) with pair_text.
  rewrite (split_on_join "&" (map pair_text (p :: rest))).
  - induction (p :: rest) as [|x l IH]; [done|].
    cbn [map List.filter]. rewrite pair_text_nonempty. cbn [map].
    by rewrite pair_text_parse, IH.
  - done.
  - apply Forall_forall. intros x (y & -> & _)%list_elem_of_fmap. apply pair_text_free.
Qed.

(** A decimal number is made of bytes the serializer leaves alone. *)
Lemma urlencode_uint (d : Decimal.uint) :
  urlencode (NilZero.string_of_uint d) = NilZero.string_of_uint d.
Proof.
  destruct d as [|d|d|d|d|d|d|d|d|d|d]; simpl; try done;
    f_equal; induction d as [|d IH|d IH|d IH|d IH|d IH|d IH|d IH|d IH|d IH|d IH];
    simpl; by rewrite ?IH.
Qed.

Lemma urlencode_number (z : Z) : urlencode (Number_toString z) = Number_toString z.
Proof.
  unfold Number_toString, NilZero.string_of_int.
  destruct (Z.to_int z) as [d|d]; [apply urlencode_uint|].
  change (urlencode (String "-" (NilZero.string_of_uint d)))
    with (String "-" (urlencode (NilZero.string_of_uint d))).
  by rewrite urlencode_uint.
Qed.

(** What the query of [list_assets] holds. *)
Lemma elem_of_list_assets_queryParams args k v :
  (k, v) ∈ list_assets_queryParams args <->
  (k = "folder_id" /\ Args.folder_id args = Some v /\ v <> "") \/
  (k = "file_type" /\ Args.file_type args = Some v /\ v <> "") \/
  (k = "limit" /\ exists z, Args.limit args = Some z /\ v = Number_toString z) \/
  (k = "token" /\ Args.token args = Some v /\ v <> "").
Proof.
  unfold list_assets_queryParams.
  rewrite !elem_of_append_truthy, elem_of_append_defined, !elem_of_append_truthy, elem_of_nil.
  naive_solver.
Qed.

(** What the query of [list_folders] holds. *)
Lemma elem_of_list_folders_queryParams args k v :
  (k, v) ∈ list_folders_queryParams args <->
  (k = "limit" /\ exists z, Args.limit args = Some z /\ v = Number_toString z) \/
  (k = "parent_id" /\ Args.parent_id args = Some v /\ v <> "") \/
  (k = "name_filter" /\ Args.name_filter args = Some v /\ v <> "") \/
  (k = "is_trash" /\ exists b, Args.is_trash args = Some b /\ v = Boolean_toString b) \/
  (k = "token" /\ Args.token args = Some v /\ v <> "").
Proof.
  unfold list_folders_queryParams.
  rewrite !elem_of_append_truthy, elem_of_append_defined, !elem_of_append_truthy,
    elem_of_append_defined, elem_of_nil.
  naive_solver.
Qed.

(** The body of [create_folder] starts with its [project_type]. *)
Lemma create_folder_body_head args :
  exists rest,
    create_folder_body args
    = VObject (("project_type", VString (default "mixed" (Args.project_type args))) :: rest).
Proof.
  unfold create_folder_body.
  destruct (Args.name args) as [n|], (Args.parent_id args) as [q|]; simpl;
    repeat match goal with |- context [String.eqb ?x ""] => destruct (String.eqb x "") end;
    simpl; eauto.
Qed.

Section Queries.

Variable API_KEY : string.
Variable readFileSync : string -> Outcome (list byte).
Variable fetch : string -> RequestInit -> Outcome Response.

Abbreviation handler := (CallToolRequest_handler API_KEY readFileSync fetch).

Lemma list_assets_request args :
  trace (handler {| params_name := "list_assets"; params_arguments := args |})
  = [Fetch (with_query (API_BASE_URL +:+ "/asset/list") (list_assets_queryParams args))
       (makeRequest_options API_KEY "GET" VUndefined None)].
Proof.
  rewrite handler_trace; simpl. unfold dispatch; simpl.
  by rewrite (wrap_trace _), makeRequest_trace.
Qed.

Lemma list_folders_request args :
  trace (handler {| params_name := "list_folders"; params_arguments := args |})
  = [Fetch (with_query (API_BASE_URL +:+ "/folders") (list_folders_queryParams args))
       (makeRequest_options API_KEY "GET" VUndefined None)].
Proof.
  rewrite handler_trace; simpl. unfold dispatch; simpl.
  by rewrite (wrap_trace _), makeRequest_trace.
Qed.

(** C4 (as amended). A [limit] of 0 is sent: the query of [list_assets]
    and of [list_folders] then holds [limit=0], and differs from the query
    built with [limit] omitted; [is_trash] given as [false] is sent too.
    What is never sent is a string parameter given as the empty string:
    the query built with [folder_id], [file_type], [token], [parent_id]
    or [name_filter] set to the empty string is the one built with that
    parameter omitted. *)
Theorem zero_limit_is_sent_empty_strings_are_not args :
  ("limit", "0") ∈ list_assets_queryParams (Args.with_limit (Some 0) args) /\
  ("limit", "0") ∈ list_folders_queryParams (Args.with_limit (Some 0) args) /\
  list_assets_queryParams (Args.with_limit (Some 0) args)
  <> list_assets_queryParams (Args.with_limit None args) /\
  list_folders_queryParams (Args.with_limit (Some 0) args)
  <> list_folders_queryParams (Args.with_limit None args) /\
  ("is_trash", "false") ∈ list_folders_queryParams (Args.with_is_trash (Some false) args) /\
  list_assets_queryParams (Args.with_folder_id (Some "") args)
  = list_assets_queryParams (Args.with_folder_id None args) /\
  list_assets_queryParams (Args.with_file_type (Some "") args)
  = list_assets_queryParams (Args.with_file_type None args) /\
  list_assets_queryParams (Args.with_token (Some "") args)
  = list_assets_queryParams (Args.with_token None args) /\
  list_folders_queryParams (Args.with_parent_id (Some "") args)
  = list_folders_queryParams (Args.with_parent_id None args) /\
  list_folders_queryParams (Args.with_name_filter (Some "") args)
  = list_folders_queryParams (Args.with_name_filter None args) /\
  list_folders_queryParams (Args.with_token (Some "") args)
  = list_folders_queryParams (Args.with_token None args).
Proof.
  assert (Ha : ("limit", "0") ∈ list_assets_queryParams (Args.with_limit (Some 0) args)).
  { apply elem_of_list_assets_queryParams. right; right; left. split; [done|]. by exists 0. }
  assert (Hf : ("limit", "0") ∈ list_folders_queryParams (Args.with_limit (Some 0) args)).
  { apply elem_of_list_folders_queryParams. left. split; [done|]. by exists 0. }
  repeat split; try done.
  - intros Heq. rewrite Heq in Ha.
    apply elem_of_list_assets_queryParams in Ha. simpl in Ha. naive_solver.
  - intros Heq. rewrite Heq in Hf.
    apply elem_of_list_folders_queryParams in Hf. simpl in Hf. naive_solver.
  - apply elem_of_list_folders_queryParams. do 3 right; left. split; [done|]. by exists false.
Qed.

End Queries.

(** ** The catalog and the switch *)

Lemma switch_handles name : switch name <> case_default <-> name ∈ tool_names.
Proof.
  unfold tool_names, switch. rewrite !elem_of_union, !elem_of_singleton. split.
  - repeat match goal with
           | |- context [String.eqb name ?lit] => destruct (String.eqb_spec name lit)
           end; naive_solver.
  - intros H. repeat destruct H as [H|H]; by subst.
Qed.

(** C7. The names the catalog lists, which the list-tools handler returns
    as they are, are the names the switch of the dispatcher sends to a
    case of its own: the eight names [upload_asset], [list_assets],
    [delete_asset], [list_folders], [create_folder], [update_folder],
    [trash_folder], [restore_folder], each listed once. *)
Theorem catalog_matches_switch :
  (forall name, name ∈ Tool.name <$> ListToolsRequest_handler <-> switch name <> case_default) /\
  list_to_set (Tool.name <$> ListToolsRequest_handler) = tool_names /\
  (forall name, switch name <> case_default <-> name ∈ tool_names) /\
  NoDup (Tool.name <$> ListToolsRequest_handler).
Proof.
  assert (Hnames : forall name,
            name ∈ Tool.name <$> ListToolsRequest_handler <-> name ∈ tool_names).
  { intros name. unfold ListToolsRequest_handler, tools, tool_names. simpl.
    rewrite !elem_of_cons, elem_of_nil, !elem_of_union, !elem_of_singleton. naive_solver. }
  split; [|split; [|split]].
  - intros name. by rewrite Hnames, switch_handles.
  - apply set_eq. intros name. by rewrite elem_of_list_to_set, Hnames.
  - apply switch_handles.
  - by apply (bool_decide_unpack _).
Qed.

(** ** Startup and the credential *)

Lemma startup_exits env :
  env !! "HEYGEN_API_KEY" = None \/ env !! "HEYGEN_API_KEY" = Some "" ->
  startup env = Exited ["Error: HEYGEN_API_KEY environment variable is required"] 1.
Proof. unfold startup. by intros [-> | ->]. Qed.

Lemma startup_starts env key :
  env !! "HEYGEN_API_KEY" = Some key -> key <> "" -> startup env = Started key.
Proof.
  unfold startup. intros -> Hne. simpl. apply String.eqb_neq in Hne. by rewrite Hne.
Qed.

(** C8 (as amended). When [HEYGEN_API_KEY] is absent from the
    environment, or is the empty string, the process writes the message
    to the diagnostic stream and exits with status 1, and no tool
    invocation is handled. When it is there and not empty, the process
    does not exit, it handles every invocation, and every request any of
    them sends carries that value, unchanged, in [X-Api-Key]. *)
Theorem startup_needs_the_credential (env : gmap string string)
    (readFileSync : string -> Outcome (list byte))
    (fetch : string -> RequestInit -> Outcome Response)
    (requests : list CallToolRequest) :
  (env !! "HEYGEN_API_KEY" = None \/ env !! "HEYGEN_API_KEY" = Some "" ->
     run env readFileSync fetch requests
     = {| stderr := ["Error: HEYGEN_API_KEY environment variable is required"];
          exit_code := Some 1;
          handled := [] |}) /\
  (forall key, env !! "HEYGEN_API_KEY" = Some key -> key <> "" ->
     startup env = Started key /\
     exit_code (run env readFileSync fetch requests) = None /\
     handled (run env readFileSync fetch requests)
     = map (CallToolRequest_handler key readFileSync fetch) requests /\
     forall h url options,
       h ∈ handled (run env readFileSync fetch requests) ->
       (url, options) ∈ fetches (trace h) ->
       headers options !! "X-Api-Key" = Some key).
Proof.
  split.
  - intros H. unfold run. by rewrite (startup_exits _ H).
  - intros key Hk Hne. unfold run. rewrite (startup_starts _ _ Hk Hne). simpl.
    repeat split. intros h url options Hh Hin.
    apply list_elem_of_fmap in Hh as (request & -> & _).
    destruct (handler_fetches _ _ _ _ _ _ Hin) as (verb & payload & ct & ->).
    apply makeRequest_headers_key.
Qed.

(** ** Concrete runs *)

(** An invocation of [upload_asset] for a file that is not there: the
    handler returns the flagged result with the message of the file
    system, and sends nothing. *)
Lemma missing_file_is_reported :
  CallToolRequest_handler "secret" no_file refuses
    {| params_name := "upload_asset";
       params_arguments :=
         Args.with_file_path (Some "/tmp/missing.png")
           (Args.with_mime_type (Some "image/png") Args.empty) |}
  = mkIO [ReadFile "/tmp/missing.png"]
      (Returned (error_result
         "Error: ENOENT: no such file or directory, open '/tmp/missing.png'")).
Proof.
  set (request := {| params_name := "upload_asset"; params_arguments := _ |}).
  destruct (handler_catches_every_failure "secret" no_file refuses request)
    as [(result & Hout & _ & _ & Hfile) _].
  destruct (Hfile "/tmp/missing.png" _ eq_refl eq_refl eq_refl) as [-> Htrace].
  destruct (CallToolRequest_handler _ _ _ request) as [tr out].
  simpl in Hout, Htrace. by rewrite Hout, Htrace.
Defined.

(** C2, where the claim fails: an upload whose content type is the empty
    string. The content type was given, and the request has no
    [Content-Type] header at all, so the header is not the given value. *)
Lemma empty_content_type_is_not_sent :
  exists options,
    trace (makeRequest "secret" (answers success) "https://upload.heygen.com/v1/asset"
             "POST" (VBuffer png_bytes) (Some ""))
    = [Fetch "https://upload.heygen.com/v1/asset" options] /\
    headers options !! "Content-Type" = None /\
    headers options !! "Content-Type" <> Some "".
Proof.
  eexists. split; [apply makeRequest_trace|].
  assert (headers (makeRequest_options "secret" "POST" (VBuffer png_bytes) (Some ""))
          !! "Content-Type" = None) as ->; [|done].
  by apply unstructured_headers; [right; left|].
Qed.

(** A request for a folder rename, with a content type and a structured
    body. *)
Lemma explicit_content_type_is_sent :
  exists options,
    trace (makeRequest "secret" (answers success) "https://api.heygen.com/v1/folders/f1"
             "POST" (VObject [("name", VString "Clips")]) (Some "application/json"))
    = [Fetch "https://api.heygen.com/v1/folders/f1" options] /\
    headers options !! "X-Api-Key" = Some "secret" /\
    headers options !! "Content-Type" = Some "application/json" /\
    body options = Some (BodyString ("{" +:+ quoted "name" +:+ ":" +:+ quoted "Clips" +:+ "}")).
Proof.
  destruct (makeRequest_builds_request "secret" (answers success)
              "https://api.heygen.com/v1/folders/f1" "POST"
              (VObject [("name", VString "Clips")]) (Some "application/json"))
    as (options & Htrace & _ & Hkey & Hct & _ & Hbody & _).
  exists options. split; [done|]. split; [done|]. split; [by apply Hct|].
  destruct (Hbody eq_refl) as (s & Hs & ->). by injection Hs as <-.
Defined.

(** C4, where the claim fails: [limit] given as 0. The query string is
    [limit=0], and it is empty with [limit] omitted. *)
Lemma zero_limit_changes_the_query :
  URLSearchParams_toString (list_assets_queryParams (Args.with_limit (Some 0) Args.empty))
  = "limit=0" /\
  URLSearchParams_toString (list_assets_queryParams (Args.with_limit None Args.empty)) = "" /\
  URLSearchParams_toString (list_folders_queryParams (Args.with_limit (Some 0) Args.empty))
  = "limit=0" /\
  URLSearchParams_toString (list_folders_queryParams (Args.with_limit None Args.empty)) = "" /\
  exists options,
    trace (CallToolRequest_handler "secret" no_file (answers success)
             {| params_name := "list_assets";
                params_arguments := Args.with_limit (Some 0) Args.empty |})
    = [Fetch "https://api.heygen.com/v1/asset/list?limit=0" options].
Proof.
  repeat split. eexists. by rewrite list_assets_request.
Qed.

(** C5, where the claim fails: an upload of a readable file with
    [mime_type] given as the empty string. The file is read and sent, and
    the request has no [Content-Type] header. *)
Lemma empty_mime_type_is_not_sent :
  exists options,
    trace (CallToolRequest_handler "secret" (one_file "/tmp/logo.png" png_bytes)
             (answers success)
             {| params_name := "upload_asset";
                params_arguments :=
                  Args.with_file_path (Some "/tmp/logo.png")
                    (Args.with_mime_type (Some "") Args.empty) |})
    = [ReadFile "/tmp/logo.png"; Fetch "https://upload.heygen.com/v1/asset" options] /\
    body options = Some (BodyBuffer png_bytes) /\
    headers options !! "Content-Type" = None /\
    headers options !! "Content-Type" <> Some "".
Proof.
  exists (makeRequest_options "secret" "POST" (VBuffer png_bytes) (Some "")).
  split; [|split; [done|]].
  - rewrite handler_trace. cbn [params_name params_arguments].
    rewrite (dispatch_upload_asset _ _ _ "upload_asset" _ eq_refl).
    cbn [Args.with_file_path Args.file_path read_file].
    rewrite (bind_returned _ _ png_bytes) by done. cbn [trace].
    by rewrite wrap_trace, makeRequest_trace.
  - assert (headers (makeRequest_options "secret" "POST" (VBuffer png_bytes) (Some ""))
            !! "Content-Type" = None) as ->; [|done].
    by apply unstructured_headers; [right; left|].
Qed.

(** An upload of a readable PNG file. *)
Lemma png_upload_sends_the_file :
  exists options,
    trace (CallToolRequest_handler "secret" (one_file "/tmp/logo.png" png_bytes)
             (answers success)
             {| params_name := "upload_asset";
                params_arguments :=
                  Args.with_file_path (Some "/tmp/logo.png")
                    (Args.with_mime_type (Some "image/png") Args.empty) |})
    = [ReadFile "/tmp/logo.png"; Fetch "https://upload.heygen.com/v1/asset" options] /\
    method options = "POST" /\
    body options = Some (BodyBuffer png_bytes) /\
    headers options !! "Content-Type" = Some "image/png" /\
    headers options !! "X-Api-Key" = Some "secret".
Proof.
  destruct (upload_asset_sends_the_file "secret" (one_file "/tmp/logo.png" png_bytes)
              (answers success)
              (Args.with_file_path (Some "/tmp/logo.png")
                 (Args.with_mime_type (Some "image/png") Args.empty))
              "/tmp/logo.png" "image/png" png_bytes eq_refl eq_refl eq_refl)
    as (options & Htrace & Hmethod & Hbody & _ & Hct & _ & Hkey).
  exists options. split; [exact Htrace|]. split; [exact Hmethod|]. split; [exact Hbody|].
  split; [apply Hct; discriminate | exact Hkey].
Defined.

(** C6, where the claim fails: a 502 whose body is not JSON. The adapter
    throws what [response.json()] threw, and that message has no status
    code in it. *)
Lemma bad_gateway_loses_the_status :
  status bad_gateway = 502 /\
  outcome (makeRequest "secret" (answers bad_gateway) "https://api.heygen.com/v1/folders"
             "GET" VUndefined None)
  = Thrown (ErrorInstance "Unexpected token < in JSON at position 0") /\
  includes "502" "Unexpected token < in JSON at position 0" = false.
Proof. split; [done|]. split; [by rewrite makeRequest_outcome | done]. Qed.

(** A 404 with a JSON body, seen from [makeRequest] and from the handler
    of [delete_asset]. *)
Lemma not_found_is_reported :
  outcome (makeRequest "secret" (answers not_found)
             "https://api.heygen.com/v1/asset/a1/delete" "POST" VUndefined None)
  = Thrown (ErrorInstance
      ("API request failed: 404 - {" +:+ quoted "error" +:+ ":" +:+ quoted "not found" +:+ "}")) /\
  outcome (CallToolRequest_handler "secret" no_file (answers not_found)
             {| params_name := "delete_asset"; params_arguments := Args.empty |})
  = Returned (error_result
      ("Error: API request failed: 404 - {" +:+ quoted "error" +:+ ":"
         +:+ quoted "not found" +:+ "}")).
Proof.
  destruct (makeRequest_raises_on_status "secret" no_file (answers not_found))
    as (Hadapter & _ & Hdispatch).
  split.
  - destruct (Hadapter "https://api.heygen.com/v1/asset/a1/delete" "POST" VUndefined None
                not_found _ eq_refl eq_refl) as [Hfail _].
    destruct Hfail as [-> _]; [simpl; lia | done].
  - destruct (Hdispatch {| params_name := "delete_asset"; params_arguments := Args.empty |})
      as (message & -> & -> & _); done.
Defined.

(** C8, where the claim fails: the variable is there, and empty. The
    process exits with status 1. *)
Lemma empty_credential_exits :
  ({[ "HEYGEN_API_KEY" := "" ]} : gmap string string) !! "HEYGEN_API_KEY" = Some "" /\
  startup {[ "HEYGEN_API_KEY" := "" ]}
  = Exited ["Error: HEYGEN_API_KEY environment variable is required"] 1.
Proof. split; [done|]. by apply startup_exits; right. Qed.

(** A run with the credential set: the process goes on, and the upload
    carries the credential. *)
Lemma credential_reaches_the_request :
  startup {[ "HEYGEN_API_KEY" := "sk_live_1" ]} = Started "sk_live_1" /\
  Forall (fun h =>
            Forall (fun sent => headers sent.2 !! "X-Api-Key" = Some "sk_live_1")
                   (fetches (trace h)))
    (handled (run {[ "HEYGEN_API_KEY" := "sk_live_1" ]}
                (one_file "/tmp/logo.png" png_bytes) (answers success)
                [ {| params_name := "upload_asset";
                     params_arguments :=
                       Args.with_file_path (Some "/tmp/logo.png")
                         (Args.with_mime_type (Some "image/png") Args.empty) |} ])).
Proof.
  destruct (startup_needs_the_credential {[ "HEYGEN_API_KEY" := "sk_live_1" ]}
              (one_file "/tmp/logo.png" png_bytes) (answers success)
              [ {| params_name := "upload_asset";
                   params_arguments :=
                     Args.with_file_path (Some "/tmp/logo.png")
                       (Args.with_mime_type (Some "image/png") Args.empty) |} ])
    as [_ Hrun].
  destruct (Hrun "sk_live_1" eq_refl ltac:(discriminate)) as (Hstart & _ & _ & Hkey).
  split; [exact Hstart|].
  apply Forall_forall. intros h Hh. apply Forall_forall. intros [url options] Hin.
  exact (Hkey h url options Hh Hin).
Defined.

(** * Further properties of the code *)

(** ** Strings *)

Lemma with_query_prefix base q : String.prefix base (with_query base q) = true.
Proof.
  unfold with_query. destruct (truthy _); [apply prefix_app|].
  rewrite <- (append_empty_r base) at 2. apply prefix_app.
Qed.

Lemma prefix_trans_app (a b c : string) :
  String.prefix (a +:+ b) c = true -> String.prefix a c = true.
Proof.
  revert c. induction a as [|x a IH]; intros c; [by destruct c|].
  change (String x a +:+ b) with (String x (a +:+ b)).
  destruct c as [|y c]; simpl; [done|].
  destruct (Ascii.ascii_dec x y); [apply IH|done].
Qed.

Lemma read_quote_json_char c rest :
  read_json_string (quote_json_char c +:+ rest) = String c (read_json_string rest).
Proof. by destruct c as [[] [] [] [] [] [] [] []]. Qed.

Lemma read_quote_json_chars s rest :
  read_json_string (quote_json_chars s +:+ String dquote rest) = s.
Proof.
  induction s as [|c s IH]; [done|].
  change (quote_json_chars (String c s)) with (quote_json_char c +:+ quote_json_chars s).
  by rewrite append_assoc, read_quote_json_char, IH.
Qed.

Lemma JSON_read_QuoteJSONString s rest :
  JSON_read_string (QuoteJSONString s +:+ rest) = Some s.
Proof.
  unfold QuoteJSONString, quoted.
  change (String dquote (quote_json_chars s +:+ String dquote "") +:+ rest)
    with (String dquote ((quote_json_chars s +:+ String dquote "") +:+ rest)).
  cbn [JSON_read_string]. rewrite Ascii.eqb_refl, append_assoc.
  change (String dquote "" +:+ rest) with (String dquote rest).
  by rewrite read_quote_json_chars.
Qed.

Lemma append_inv_head (a b c : string) : a +:+ b = a +:+ c -> b = c.
Proof.
  induction a as [|x a IH]; [done|].
  change (String x a +:+ b) with (String x (a +:+ b)).
  change (String x a +:+ c) with (String x (a +:+ c)).
  intros [= H]. by apply IH.
Qed.

Lemma of_optional_inj o1 o2 : of_optional o1 = of_optional o2 -> o1 = o2.
Proof. destruct o1, o2; simpl; congruence. Qed.

Lemma with_query_inj base q1 q2 : with_query base q1 = with_query base q2 -> q1 = q2.
Proof.
  intros H.
  destruct (decide (q1 = [])) as [->|H1], (decide (q2 = [])) as [->|H2]; [done| | |].
  - rewrite with_query_nil, (with_query_cons _ _ H2) in H.
    rewrite <- (append_empty_r base) in H at 1. by apply append_inv_head in H.
  - rewrite with_query_nil, (with_query_cons _ _ H1) in H.
    rewrite <- (append_empty_r base) in H at 2. by apply append_inv_head in H.
  - rewrite (with_query_cons _ _ H1), (with_query_cons _ _ H2) in H.
    apply append_inv_head in H. apply (append_inv_head "?") in H.
    rewrite <- (URLSearchParams_parse_toString q1), <- (URLSearchParams_parse_toString q2).
    by rewrite H.
Qed.

Lemma prefix_app_l (n a b : string) :
  String.prefix n a = true -> String.prefix n (a +:+ b) = true.
Proof.
  revert a. induction n as [|x n IH]; intros a; [by destruct a, b|].
  destruct a as [|y a]; [done|].
  change (String y a +:+ b) with (String y (a +:+ b)). simpl.
  destruct (Ascii.ascii_dec x y); [apply IH|done].
Qed.

Lemma includes_app_left (n a b : string) :
  includes n a = true -> includes n (a +:+ b) = true.
Proof.
  induction a as [|x a IH].
  - destruct n; [by destruct b|done].
  - change (String x a +:+ b) with (String x (a +:+ b)).
    rewrite (includes_unfold n (String x a)), (includes_unfold n (String x (a +:+ b))).
    intros [H|H]%orb_true_iff.
    + pose proof (prefix_app_l n (String x a) b H) as Hp.
      change (String x a +:+ b) with (String x (a +:+ b)) in Hp. by rewrite Hp.
    + rewrite (IH H). apply orb_true_r.
Qed.

Lemma includes_join (n sep : string) (lines : list string) (line : string) :
  line ∈ lines -> includes n line = true -> includes n (join sep lines) = true.
Proof.
  intros Hin Hn. induction lines as [|l lines IH]; [by apply elem_of_nil in Hin|].
  destruct lines as [|l' lines].
  - apply list_elem_of_singleton in Hin as ->. done.
  - change (join sep (l :: l' :: lines)) with (l +:+ sep +:+ join sep (l' :: lines)).
    apply elem_of_cons in Hin as [->|Hin].
    + by apply includes_app_left.
    + do 2 apply includes_app_r. by apply IH.
Qed.

Lemma includes_quoted (n s : string) : includes n s = true -> includes n (quoted s) = true.
Proof.
  intros H. unfold quoted. apply (includes_app_r (String dquote "")).
  by apply includes_app_left.
Qed.

(** ** What the handler does, tool by tool *)

Section Coverage.

Variable API_KEY : string.
Variable readFileSync : string -> Outcome (list byte).
Variable fetch : string -> RequestInit -> Outcome Response.

Abbreviation makeRequest' := (makeRequest API_KEY fetch).
Abbreviation dispatch' := (dispatch API_KEY readFileSync fetch).
Abbreviation handler := (CallToolRequest_handler API_KEY readFileSync fetch).

(** The headers of a request: the credential, and at most a content type. *)
Lemma makeRequest_headers_dom payload contentType :
  dom (makeRequest_headers API_KEY payload contentType) ⊆ {[ "X-Api-Key"; "Content-Type" ]}.
Proof.
  unfold makeRequest_headers.
  destruct contentType as [ct|]; repeat case_match;
    rewrite ?dom_insert_L, dom_singleton_L; set_solver.
Qed.

(** The trace of [upload_asset], by what the file system does. *)
Lemma upload_asset_trace name args :
  switch name = case_upload_asset ->
  trace (dispatch' name args)
  = match Args.file_path args with
    | None => []
    | Some path =>
        match readFileSync path with
        | Thrown _ => [ReadFile path]
        | Returned data =>
            [ReadFile path;
             Fetch (UPLOAD_BASE_URL +:+ "/asset")
               (makeRequest_options API_KEY "POST" (VBuffer data) (Args.mime_type args))]
        end
    end.
Proof.
  intros Hu. rewrite (dispatch_upload_asset _ _ _ _ _ Hu). unfold read_file.
  destruct (Args.file_path args) as [path|]; [|done].
  destruct (readFileSync path) as [data|e] eqn:Hr.
  - rewrite (bind_returned _ _ data) by done. cbn [trace].
    by rewrite wrap_trace, makeRequest_trace.
  - by rewrite (bind_thrown _ _ e).
Qed.

(** The request of each case, read off a trace. *)
Lemma handler_request_cases name args url options :
  (url, options)
  ∈ fetches (trace (handler {| params_name := name; params_arguments := args |})) ->
  (switch name = case_upload_asset /\ url = UPLOAD_BASE_URL +:+ "/asset" /\
   exists data, options = makeRequest_options API_KEY "POST" (VBuffer data) (Args.mime_type args)) \/
  (switch name = case_list_assets /\
   url = with_query (API_BASE_URL +:+ "/asset/list") (list_assets_queryParams args) /\
   options = makeRequest_options API_KEY "GET" VUndefined None) \/
  (switch name = case_delete_asset /\
   url = API_BASE_URL +:+ "/asset/" +:+ template (Args.asset_id args) +:+ "/delete" /\
   options = makeRequest_options API_KEY "POST" VUndefined None) \/
  (switch name = case_list_folders /\
   url = with_query (API_BASE_URL +:+ "/folders") (list_folders_queryParams args) /\
   options = makeRequest_options API_KEY "GET" VUndefined None) \/
  (switch name = case_create_folder /\ url = API_BASE_URL +:+ "/folders/create" /\
   options = makeRequest_options API_KEY "POST" (create_folder_body args) None) \/
  (switch name = case_update_folder /\
   url = API_BASE_URL +:+ "/folders/" +:+ template (Args.folder_id args) /\
   options = makeRequest_options API_KEY "POST"
               (VObject [("name", of_optional (Args.name args))]) (Some "application/json")) \/
  (switch name = case_trash_folder /\
   url = API_BASE_URL +:+ "/folders/" +:+ template (Args.folder_id args) +:+ "/trash" /\
   options = makeRequest_options API_KEY "POST" VUndefined None) \/
  (switch name = case_restore_folder /\
   url = API_BASE_URL +:+ "/folders/" +:+ template (Args.folder_id args) +:+ "/restore" /\
   options = makeRequest_options API_KEY "POST" VUndefined None).
Proof.
  rewrite handler_trace. cbn [params_name params_arguments]. intros Hin.
  destruct (switch name) eqn:Hs.
  - rewrite (upload_asset_trace _ _ Hs) in Hin. left. split; [done|].
    destruct (Args.file_path args) as [path|]; [|by apply elem_of_nil in Hin].
    destruct (readFileSync path) as [data|e]; cbn in Hin.
    + apply list_elem_of_singleton in Hin. injection Hin as -> ->. eauto.
    + by apply elem_of_nil in Hin.
  - right; left. split; [done|]. revert Hin. unfold dispatch. rewrite Hs.
    rewrite (wrap_trace _), makeRequest_trace. cbn.
    intros Hin%list_elem_of_singleton. by injection Hin as -> ->.
  - do 2 right; left. split; [done|]. revert Hin. unfold dispatch. rewrite Hs.
    rewrite (wrap_trace _), makeRequest_trace. cbn.
    intros Hin%list_elem_of_singleton. by injection Hin as -> ->.
  - do 3 right; left. split; [done|]. revert Hin. unfold dispatch. rewrite Hs.
    rewrite (wrap_trace _), makeRequest_trace. cbn.
    intros Hin%list_elem_of_singleton. by injection Hin as -> ->.
  - do 4 right; left. split; [done|]. revert Hin. unfold dispatch. rewrite Hs.
    rewrite (wrap_trace _), makeRequest_trace. cbn.
    intros Hin%list_elem_of_singleton. by injection Hin as -> ->.
  - do 5 right; left. split; [done|]. revert Hin. unfold dispatch. rewrite Hs.
    rewrite (wrap_trace _), makeRequest_trace. cbn.
    intros Hin%list_elem_of_singleton. by injection Hin as -> ->.
  - do 6 right; left. split; [done|]. revert Hin. unfold dispatch. rewrite Hs.
    rewrite (wrap_trace _), makeRequest_trace. cbn.
    intros Hin%list_elem_of_singleton. by injection Hin as -> ->.
  - do 7 right. split; [done|]. revert Hin. unfold dispatch. rewrite Hs.
    rewrite (wrap_trace _), makeRequest_trace. cbn.
    intros Hin%list_elem_of_singleton. by injection Hin as -> ->.
  - rewrite (dispatch_default _ _ _ _ _ Hs) in Hin. by apply elem_of_nil in Hin.
Qed.

(** X2. Every request the handler sends goes to the upload endpoint
    (for [upload_asset], and only then) or to a URL under
    [https://api.heygen.com/v1/]. Its method is GET for the two list
    tools and POST for all the others. A GET has no body and no header
    but the credential. No request has a header other than [X-Api-Key]
    and [Content-Type], and each carries the credential. *)
Theorem requests_stay_within_the_api request url options :
  (url, options) ∈ fetches (trace (handler request)) ->
  (String.prefix "https://api.heygen.com/v1/" url = true \/
   url = "https://upload.heygen.com/v1/asset") /\
  (url = "https://upload.heygen.com/v1/asset" <->
   switch (params_name request) = case_upload_asset) /\
  (method options = "GET" \/ method options = "POST") /\
  (method options = "GET" <->
   switch (params_name request) = case_list_assets \/
   switch (params_name request) = case_list_folders) /\
  (method options = "GET" ->
   body options = None /\ headers options = {[ "X-Api-Key" := API_KEY ]}) /\
  dom (headers options) ⊆ {[ "X-Api-Key"; "Content-Type" ]} /\
  headers options !! "X-Api-Key" = Some API_KEY.
Proof.
  destruct request as [name args]. cbn [params_name]. intros Hin.
  apply handler_request_cases in Hin.
  assert (Hpre : forall rest q,
            String.prefix "https://api.heygen.com/v1/"
              (with_query (API_BASE_URL +:+ String "/" rest) q) = true).
  { intros rest q. apply (prefix_trans_app _ rest). apply with_query_prefix. }
  destruct Hin as [(Hs & -> & data & ->)|[(Hs & -> & ->)|[(Hs & -> & ->)|[(Hs & -> & ->)|
                  [(Hs & -> & ->)|[(Hs & -> & ->)|[(Hs & -> & ->)|(Hs & -> & ->)]]]]]]];
    rewrite Hs; repeat split; try done;
    try (by intros [=]); try (by intros [[=]|[=]]); try (by eauto);
    try apply makeRequest_headers_dom; try apply makeRequest_headers_key.
  all: try (left; apply Hpre).
  all: try (by left).
  all: try (by right).
  all: intros Heq;
    match type of Heq with
    | with_query (API_BASE_URL +:+ String "/" ?r) ?q = _ =>
        pose proof (Hpre r q) as Hp; rewrite Heq in Hp; discriminate Hp
    end.
Qed.

(** Such an invocation ends as its one call of the adapter does. *)
Lemma reaches_the_network_outcome request :
  reaches_the_network readFileSync request ->
  exists url verb payload contentType,
    fetches (trace (handler request))
    = [(url, makeRequest_options API_KEY verb payload contentType)] /\
    outcome (dispatch' (params_name request) (params_arguments request))
    = match outcome (makeRequest' url verb payload contentType) with
      | Returned result => Returned (text_result (JSON_stringify_pretty result))
      | Thrown e => Thrown e
      end.
Proof.
  destruct request as [name args]. intros [Hd Hfile]; cbn [params_name params_arguments] in *.
  rewrite handler_trace; cbn [params_name params_arguments].
  destruct (decide (switch name = case_upload_asset)) as [Hu|Hu].
  - destruct (Hfile Hu) as (path & data & Hp & Hr).
    rewrite (upload_asset_trace _ _ Hu), (dispatch_upload_asset _ _ _ _ _ Hu), Hp, Hr.
    unfold read_file. rewrite (bind_returned _ _ data) by done. cbn [outcome].
    eexists _, _, _, _. split; [reflexivity|]. by rewrite wrap_outcome.
  - destruct (dispatch_one_request API_KEY readFileSync fetch name args Hd Hu)
      as (u & verb & payload & ct & ->).
    rewrite wrap_trace, makeRequest_trace, wrap_outcome. eexists _, _, _, _. by split.
Qed.

Lemma stringify_defined gap indent v :
  v <> VUndefined -> exists s, SerializeJSONProperty gap indent v = Some s.
Proof. destruct v; try done; intros _; simpl; eauto. Qed.

(** X3. When the network answers a known tool with a status in 200..299
    and a body that parses, the handler returns a result that is not
    flagged, whose content is one text item: the parsed body printed by
    [JSON.stringify(result, null, 2)]. It sent one request. *)
Theorem handler_wraps_the_response request response data :
  reaches_the_network readFileSync request ->
  (forall url options, fetch url options = Returned response) ->
  json response = Returned data ->
  200 <= status response <= 299 ->
  outcome (handler request)
  = Returned {| content := [ {| type := "text"; text := JSON_stringify_pretty data |} ];
                isError := None |} /\
  length (fetches (trace (handler request))) = 1%nat /\
  (data <> VUndefined -> exists s, JSON_stringify_pretty data = Some s).
Proof.
  intros Hreach Hnet Hj Hs.
  destruct (reaches_the_network_outcome _ Hreach) as (u & verb & payload & ct & Htr & Hout).
  rewrite handler_outcome, Hout, makeRequest_outcome, Hnet, Hj.
  apply ok_iff in Hs. rewrite Hs, Htr.
  split; [done|]. split; [done|]. apply stringify_defined.
Qed.

(** X4. When [fetch] itself rejects (no connection, DNS failure), a known
    tool gives the flagged result [Error: ] followed by the message of
    that error, after one attempt. *)
Theorem network_failure_is_reported request e :
  reaches_the_network readFileSync request ->
  (forall url options, fetch url options = Thrown e) ->
  outcome (handler request) = Returned (error_result ("Error: " +:+ error_text e)) /\
  length (fetches (trace (handler request))) = 1%nat.
Proof.
  intros Hreach Hnet.
  destruct (reaches_the_network_outcome _ Hreach) as (u & verb & payload & ct & Htr & Hout).
  by rewrite handler_outcome, Hout, makeRequest_outcome, Hnet, Htr.
Qed.

(** X5. The flag tells failure from success: the result of the handler
    has [isError] set exactly when the tool is unknown or something was
    thrown in the [try] block; otherwise [isError] is absent (it is never
    [false]). In both cases the content is one text item. *)
Theorem flag_marks_exactly_the_failures request result :
  outcome (handler request) = Returned result ->
  (isError result = Some true <->
   switch (params_name request) = case_default \/
   exists e, outcome (dispatch' (params_name request) (params_arguments request)) = Thrown e) /\
  (isError result = None \/ isError result = Some true) /\
  (exists text, content result = [ {| type := "text"; text := text |} ]).
Proof.
  rewrite handler_outcome. destruct request as [name args]; cbn [params_name params_arguments].
  destruct (decide (switch name = case_default)) as [Hd|Hd].
  { rewrite (dispatch_default _ _ _ _ _ Hd). cbn. intros [= <-].
    split; [naive_solver|]. split; [by right|]. by eexists. }
  assert (Hret : forall r, outcome (dispatch' name args) = Returned r ->
                   exists text, r = text_result text).
  { intros r. destruct (decide (switch name = case_upload_asset)) as [Hu|Hu].
    - rewrite (dispatch_upload_asset _ _ _ _ _ Hu).
      destruct (read_file readFileSync (Args.file_path args)) as [tr [data|e]] eqn:Hread.
      + rewrite (bind_returned _ _ data) by done. cbn [outcome]. rewrite wrap_outcome.
        destruct (outcome _); [|done]. intros [= <-]. eauto.
      + by rewrite (bind_thrown _ _ e).
    - destruct (dispatch_one_request API_KEY readFileSync fetch name args Hd Hu)
        as (u & verb & payload & ct & ->).
      rewrite wrap_outcome. destruct (outcome _); [|done]. intros [= <-]. eauto. }
  destruct (outcome (dispatch' name args)) as [r|e] eqn:Hout.
  - destruct (Hret r eq_refl) as [text ->]. intros [= <-]. cbn.
    split; [naive_solver|]. split; [by left|]. by eexists.
  - intros [= <-]. cbn. split; [naive_solver|]. split; [by right|]. by eexists.
Qed.

(** X9. Quoting a string for JSON loses nothing: reading the quoted text
    back up to its closing quote gives the string, whatever follows the
    quote. So two [update_folder] requests have the same body only when
    they carry the same name. *)
Theorem quoted_names_are_read_back :
  (forall s rest, JSON_read_string (QuoteJSONString s +:+ rest) = Some s) /\
  (forall name1 name2,
     body (makeRequest_options API_KEY "POST" (VObject [("name", VString name1)])
             (Some "application/json"))
     = body (makeRequest_options API_KEY "POST" (VObject [("name", VString name2)])
               (Some "application/json"))
     <-> name1 = name2).
Proof.
  split; [apply JSON_read_QuoteJSONString|].
  intros name1 name2. split; [|by intros ->].
  cbn. unfold member. cbn. intros [= H].
  rewrite !append_assoc in H.
  change (String dquote "" +:+ "}") with (String dquote "}") in H.
  apply (f_equal read_json_string) in H.
  by rewrite !read_quote_json_chars in H.
Qed.

(** X10. The URL of a list request tells its parameters: two
    [list_assets] (or [list_folders]) invocations send the same request
    exactly when their queries hold the same parameters in the same
    order. *)
Theorem list_urls_tell_the_parameters args1 args2 :
  (trace (handler {| params_name := "list_assets"; params_arguments := args1 |})
   = trace (handler {| params_name := "list_assets"; params_arguments := args2 |})
   <-> list_assets_queryParams args1 = list_assets_queryParams args2) /\
  (trace (handler {| params_name := "list_folders"; params_arguments := args1 |})
   = trace (handler {| params_name := "list_folders"; params_arguments := args2 |})
   <-> list_folders_queryParams args1 = list_folders_queryParams args2).
Proof.
  rewrite !list_assets_request, !list_folders_request.
  split; (split; [intros [= H]; by apply with_query_inj in H | by intros ->]).
Qed.

(** X11. The handler of a tool reads only the arguments the schema of
    that tool declares: two argument bags that agree on the declared
    properties are handled in the same way, with the same outside calls
    and the same result, in every world. *)
Theorem handler_reads_declared_arguments_only tool args1 args2 :
  tool ∈ ListToolsRequest_handler ->
  (forall p, p ∈ properties (Tool.inputSchema tool) ->
     argument (property p) args1 = argument (property p) args2) ->
  handler {| params_name := Tool.name tool; params_arguments := args1 |}
  = handler {| params_name := Tool.name tool; params_arguments := args2 |}.
Proof.
  intros Htool Hagree. apply Forall_forall in Hagree.
  unfold ListToolsRequest_handler, tools in Htool.
  destruct args1, args2.
  repeat (apply elem_of_cons in Htool as [->|Htool]); [..|by apply elem_of_nil in Htool];
    cbn in Hagree;
    repeat match goal with H : Forall _ (_ :: _) |- _ => apply Forall_cons in H as [? H] end;
    repeat match goal with
           | H : argument _ _ = argument _ _ |- _ => progress cbn in H
           | H : of_optional _ = of_optional _ |- _ => apply of_optional_inj in H
           | H : from_option _ _ ?x = from_option _ _ ?y |- _ =>
               destruct x, y; cbn in H; try discriminate H
           end;
    simplify_eq; reflexivity.
Qed.

(** X12. For every known tool, a response with a status outside 200..299
    whose body parses gives the flagged result
    [Error: API request failed: status - body], and a response whose body
    does not parse gives the flagged result [Error: ] followed by the
    message of the parse error. One request was sent. *)
Theorem upstream_errors_are_flagged request response :
  reaches_the_network readFileSync request ->
  (forall url options, fetch url options = Returned response) ->
  (forall data, json response = Returned data -> ~ 200 <= status response <= 299 ->
     outcome (handler request)
     = Returned (error_result ("Error: " +:+ failure_message response data))) /\
  (forall e, json response = Thrown e ->
     outcome (handler request) = Returned (error_result ("Error: " +:+ error_text e))) /\
  length (fetches (trace (handler request))) = 1%nat.
Proof.
  intros Hreach Hnet.
  destruct (reaches_the_network_outcome _ Hreach)
    as (u & verb & payload & ct & Htr & Hout).
  rewrite handler_outcome, Hout, makeRequest_outcome, Hnet, Htr.
  split; [|split; [|done]].
  - intros data -> Hs. destruct (ok response) eqn:Hok; [by apply ok_iff in Hok|done].
  - by intros e ->.
Qed.

End Coverage.

(** * The handler on every argument object *)

Lemma mret_bind {A B : Type} (a : A) (f : A -> IO B) : mret a ≫= f = f a.
Proof. unfold mbind, IO_bind, mret, IO_ret. cbn. by destruct (f a). Qed.

Lemma null_or_not {A : Type} (h : Wire.held A) : h = Wire.Null \/ h <> Wire.Null.
Proof. destruct h; (by left) || (by right). Qed.

Lemma elem_of_wire_append_truthy k v key h (queryParams : list (string * string)) :
  (k, v) ∈ Wire.append_truthy key h queryParams
  <-> (k, v) ∈ queryParams \/ (k = key /\ h = Wire.Held v /\ v <> "").
Proof.
  unfold Wire.append_truthy. destruct h as [| |s]; cbn; [naive_solver..|].
  destruct (String.eqb_spec s ""); cbn.
  - naive_solver.
  - rewrite elem_of_app, list_elem_of_singleton. naive_solver.
Qed.

Lemma wire_append_truthy_keys key h (queryParams : list (string * string)) :
  (Wire.append_truthy key h queryParams).*1
  = (queryParams.*1 ++ if truthy (Wire.value h) then [key] else [])%list.
Proof.
  unfold Wire.append_truthy. destruct (truthy _); [by rewrite fmap_app|by rewrite app_nil_r].
Qed.

(** [toString] is called on what is there: it gives a parameter for a
    value and nothing for a property that is absent. *)
Lemma wire_append_defined {A} (toString : A -> string) key (h : Wire.held A)
    (queryParams : list (string * string)) :
  h <> Wire.Null ->
  exists appended,
    Wire.append_defined toString key h queryParams = mret appended /\
    (forall k v,
       (k, v) ∈ appended
       <-> (k, v) ∈ queryParams \/ (k = key /\ exists x, h = Wire.Held x /\ v = toString x)) /\
    appended.*1 = (queryParams.*1 ++ if h is Wire.Held _ then [key] else [])%list.
Proof.
  intros Hh. destruct h as [| |x]; [|done|]; cbn; eexists; (split; [reflexivity|]); split.
  - naive_solver.
  - by rewrite app_nil_r.
  - intros k v. rewrite elem_of_app, list_elem_of_singleton. naive_solver.
  - by rewrite fmap_app.
Qed.

(** The query of [list_assets], when [limit] is not [null]. *)
Lemma wire_list_assets_queryParams args :
  Wire.limit args <> Wire.Null ->
  exists queryParams,
    Wire.list_assets_queryParams args = mret queryParams /\
    (forall k v,
       (k, v) ∈ queryParams <->
       (k = "folder_id" /\ Wire.folder_id args = Wire.Held v /\ v <> "") \/
       (k = "file_type" /\ Wire.file_type args = Wire.Held v /\ v <> "") \/
       (k = "limit" /\ exists n, Wire.limit args = Wire.Held n /\ v = Wire.printed n) \/
       (k = "token" /\ Wire.token args = Wire.Held v /\ v <> "")) /\
    NoDup queryParams.*1.
Proof.
  intros Hl. unfold Wire.list_assets_queryParams.
  destruct (wire_append_defined Wire.printed "limit" (Wire.limit args)
              (Wire.append_truthy "file_type" (Wire.file_type args)
                 (Wire.append_truthy "folder_id" (Wire.folder_id args) [])) Hl)
    as (q & -> & Hq & Hk).
  rewrite mret_bind. eexists. split; [reflexivity|]. split.
  - intros k v. rewrite elem_of_wire_append_truthy, Hq, !elem_of_wire_append_truthy, elem_of_nil.
    naive_solver.
  - rewrite wire_append_truthy_keys, Hk, !wire_append_truthy_keys. cbn.
    destruct (truthy _), (truthy _), (Wire.limit args), (truthy _); cbn;
      by apply (bool_decide_unpack _).
Qed.

(** The query of [list_folders], when neither [limit] nor [is_trash] is
    [null]. *)
Lemma wire_list_folders_queryParams args :
  Wire.limit args <> Wire.Null -> Wire.is_trash args <> Wire.Null ->
  exists queryParams,
    Wire.list_folders_queryParams args = mret queryParams /\
    (forall k v,
       (k, v) ∈ queryParams <->
       (k = "limit" /\ exists n, Wire.limit args = Wire.Held n /\ v = Wire.printed n) \/
       (k = "parent_id" /\ Wire.parent_id args = Wire.Held v /\ v <> "") \/
       (k = "name_filter" /\ Wire.name_filter args = Wire.Held v /\ v <> "") \/
       (k = "is_trash" /\ exists b, Wire.is_trash args = Wire.Held b /\ v = Boolean_toString b) \/
       (k = "token" /\ Wire.token args = Wire.Held v /\ v <> "")) /\
    NoDup queryParams.*1.
Proof.
  intros Hl Ht. unfold Wire.list_folders_queryParams.
  destruct (wire_append_defined Wire.printed "limit" (Wire.limit args) [] Hl)
    as (q1 & -> & Hq1 & Hk1).
  rewrite mret_bind.
  destruct (wire_append_defined Boolean_toString "is_trash" (Wire.is_trash args)
              (Wire.append_truthy "name_filter" (Wire.name_filter args)
                 (Wire.append_truthy "parent_id" (Wire.parent_id args) q1)) Ht)
    as (q2 & -> & Hq2 & Hk2).
  rewrite mret_bind. eexists. split; [reflexivity|]. split.
  - intros k v. rewrite elem_of_wire_append_truthy, Hq2, !elem_of_wire_append_truthy, Hq1,
      elem_of_nil.
    naive_solver.
  - rewrite wire_append_truthy_keys, Hk2, !wire_append_truthy_keys, Hk1. cbn.
    destruct (Wire.limit args), (truthy _), (truthy _), (Wire.is_trash args), (truthy _); cbn;
      by apply (bool_decide_unpack _).
Qed.

(** A query that throws on [null]. *)
Lemma wire_list_assets_null args :
  Wire.limit args = Wire.Null ->
  exists e, Wire.list_assets_queryParams args = throw e.
Proof. intros H. unfold Wire.list_assets_queryParams. rewrite H. by eexists. Qed.

Lemma wire_list_folders_null args :
  Wire.limit args = Wire.Null \/ Wire.is_trash args = Wire.Null ->
  exists e, Wire.list_folders_queryParams args = throw e.
Proof.
  unfold Wire.list_folders_queryParams.
  destruct (Wire.limit args) as [| |n] eqn:Hl; intros [H|H]; try done;
    try (by eexists); rewrite H; cbn; by eexists.
Qed.

(** The body of [create_folder] starts with its [project_type]. *)
Lemma wire_create_folder_body_head args :
  exists rest,
    Wire.create_folder_body args
    = VObject (("project_type",
                match Wire.project_type args with
                | Wire.Absent => VString "mixed"
                | held_value => Wire.value held_value
                end) :: rest).
Proof.
  unfold Wire.create_folder_body.
  destruct (truthy (Wire.value (Wire.name args))),
    (truthy (Wire.value (Wire.parent_id args))); cbn; eauto.
Qed.

(** The typed builders are the builders on argument objects. *)
Lemma typed_list_assets_query args :
  Wire.list_assets_queryParams (of_args args) = mret (list_assets_queryParams args).
Proof.
  unfold Wire.list_assets_queryParams, list_assets_queryParams. cbn.
  by destruct (Args.folder_id args), (Args.file_type args), (Args.limit args), (Args.token args).
Qed.

Lemma typed_list_folders_query args :
  Wire.list_folders_queryParams (of_args args) = mret (list_folders_queryParams args).
Proof.
  unfold Wire.list_folders_queryParams, list_folders_queryParams. cbn.
  by destruct (Args.limit args), (Args.parent_id args), (Args.name_filter args),
    (Args.is_trash args), (Args.token args).
Qed.

Lemma typed_create_folder_body args :
  Wire.create_folder_body (of_args args) = create_folder_body args.
Proof.
  unfold Wire.create_folder_body, create_folder_body. cbn.
  by destruct (Args.project_type args), (Args.name args), (Args.parent_id args).
Qed.

Section WireFacts.

Variable API_KEY : string.
Variable readFileSync : string -> Outcome (list byte).
Variable fetch : string -> RequestInit -> Outcome Response.

Abbreviation makeRequest' := (makeRequest API_KEY fetch).
Abbreviation wire_dispatch := (Wire.dispatch API_KEY readFileSync fetch).
Abbreviation invoke := (Wire.CallToolRequest_handler API_KEY readFileSync fetch).

(** The [catch] adds no outside call. *)
Lemma invoke_trace request :
  trace (invoke request)
  = trace (wire_dispatch (Wire.params_name request) (Wire.params_arguments request)).
Proof.
  unfold Wire.CallToolRequest_handler, try_catch.
  destruct (outcome (wire_dispatch _ _)); cbn; [done|]. by rewrite app_nil_r.
Qed.

(** What the handler returns, by how the [try] block ended. *)
Lemma invoke_outcome request :
  outcome (invoke request)
  = match outcome (wire_dispatch (Wire.params_name request) (Wire.params_arguments request)) with
    | Returned result => Returned result
    | Thrown e => Returned (error_result ("Error: " +:+ error_text e))
    end.
Proof.
  unfold Wire.CallToolRequest_handler, try_catch.
  by destruct (outcome (wire_dispatch _ _)) eqn:H; cbn.
Qed.

(** A [try] block that throws before any outside call. *)
Lemma invoke_refused name args e :
  wire_dispatch name args = throw e ->
  refused_before_any_call
    (invoke {| Wire.params_name := name; Wire.params_arguments := args |}).
Proof.
  intros H. split.
  - rewrite invoke_trace; cbn. by rewrite H.
  - rewrite invoke_outcome; cbn. rewrite H. cbn. eauto.
Qed.

(** Without an argument object every case stops at its destructuring. *)
Lemma wire_dispatch_without_arguments name :
  switch name <> case_default -> exists e, wire_dispatch name None = throw e.
Proof. intros Hd. unfold Wire.dispatch. destruct (switch name); try done; by eexists. Qed.

Lemma wire_dispatch_default name args :
  switch name = case_default ->
  wire_dispatch name args = mret (error_result ("Unknown tool: " +:+ name)).
Proof. intros H. unfold Wire.dispatch. by rewrite H. Qed.

(** With an argument object, each case is what follows its
    destructuring. *)
Lemma wire_dispatch_list_assets name args :
  switch name = case_list_assets ->
  wire_dispatch name (Some args)
  = Wire.list_assets_queryParams args ≫= fun queryParams =>
      makeRequest' (with_query (API_BASE_URL +:+ "/asset/list") queryParams) "GET"
        VUndefined None ≫= wrap.
Proof. intros H. unfold Wire.dispatch, Wire.destructure. by rewrite H, mret_bind. Qed.

Lemma wire_dispatch_list_folders name args :
  switch name = case_list_folders ->
  wire_dispatch name (Some args)
  = Wire.list_folders_queryParams args ≫= fun queryParams =>
      makeRequest' (with_query (API_BASE_URL +:+ "/folders") queryParams) "GET"
        VUndefined None ≫= wrap.
Proof. intros H. unfold Wire.dispatch, Wire.destructure. by rewrite H, mret_bind. Qed.

Lemma wire_dispatch_upload_asset name args :
  switch name = case_upload_asset ->
  wire_dispatch name (Some args)
  = Wire.read_file readFileSync (Wire.file_path args) ≫= fun fileBuffer =>
      makeRequest' (UPLOAD_BASE_URL +:+ "/asset") "POST" (VBuffer fileBuffer)
        (Wire.optional (Wire.mime_type args)) ≫= wrap.
Proof. intros H. unfold Wire.dispatch, Wire.destructure. by rewrite H, mret_bind. Qed.

(** The request of each case that builds one from the properties alone. *)
Lemma wire_dispatch_one_request name args :
  switch name <> case_default -> switch name <> case_upload_asset ->
  switch name <> case_list_assets -> switch name <> case_list_folders ->
  wire_dispatch name (Some args)
  = match switch name with
    | case_delete_asset =>
        makeRequest' (API_BASE_URL +:+ "/asset/" +:+ Wire.template (Wire.asset_id args)
                        +:+ "/delete") "POST" VUndefined None
    | case_create_folder =>
        makeRequest' (API_BASE_URL +:+ "/folders/create") "POST"
          (Wire.create_folder_body args) None
    | case_update_folder =>
        makeRequest' (API_BASE_URL +:+ "/folders/" +:+ Wire.template (Wire.folder_id args))
          "POST" (VObject [("name", Wire.value (Wire.name args))]) (Some "application/json")
    | case_trash_folder =>
        makeRequest' (API_BASE_URL +:+ "/folders/" +:+ Wire.template (Wire.folder_id args)
                        +:+ "/trash") "POST" VUndefined None
    | _ =>
        makeRequest' (API_BASE_URL +:+ "/folders/" +:+ Wire.template (Wire.folder_id args)
                        +:+ "/restore") "POST" VUndefined None
    end ≫= wrap.
Proof.
  intros Hd Hu Ha Hf. unfold Wire.dispatch, Wire.destructure.
  destruct (switch name); try done; by rewrite mret_bind.
Qed.

(** The trace of a list tool. *)
Lemma wire_list_assets_trace args queryParams :
  Wire.list_assets_queryParams args = mret queryParams ->
  trace (invoke {| Wire.params_name := "list_assets"; Wire.params_arguments := Some args |})
  = [Fetch (with_query (API_BASE_URL +:+ "/asset/list") queryParams)
       (makeRequest_options API_KEY "GET" VUndefined None)].
Proof.
  intros Hq. rewrite invoke_trace; cbn [Wire.params_name Wire.params_arguments].
  rewrite (wire_dispatch_list_assets "list_assets" args eq_refl), Hq, mret_bind.
  by rewrite wrap_trace, makeRequest_trace.
Qed.

Lemma wire_list_folders_trace args queryParams :
  Wire.list_folders_queryParams args = mret queryParams ->
  trace (invoke {| Wire.params_name := "list_folders"; Wire.params_arguments := Some args |})
  = [Fetch (with_query (API_BASE_URL +:+ "/folders") queryParams)
       (makeRequest_options API_KEY "GET" VUndefined None)].
Proof.
  intros Hq. rewrite invoke_trace; cbn [Wire.params_name Wire.params_arguments].
  rewrite (wire_dispatch_list_folders "list_folders" args eq_refl), Hq, mret_bind.
  by rewrite wrap_trace, makeRequest_trace.
Qed.

Lemma wire_create_folder_trace args :
  trace (invoke {| Wire.params_name := "create_folder"; Wire.params_arguments := Some args |})
  = [Fetch (API_BASE_URL +:+ "/folders/create")
       (makeRequest_options API_KEY "POST" (Wire.create_folder_body args) None)].
Proof.
  rewrite invoke_trace; cbn [Wire.params_name Wire.params_arguments].
  rewrite (wire_dispatch_one_request "create_folder" args) by done.
  cbn [switch String.eqb Ascii.eqb Bool.eqb]. by rewrite wrap_trace, makeRequest_trace.
Qed.

(** A typed invocation is handled as the request it is. *)
Lemma typed_invocations_agree request :
  invoke (of_request request) = CallToolRequest_handler API_KEY readFileSync fetch request.
Proof.
  destruct request as [name args].
  unfold Wire.CallToolRequest_handler, CallToolRequest_handler, of_request.
  cbn [Wire.params_name Wire.params_arguments params_name params_arguments].
  f_equal. unfold Wire.dispatch, dispatch, Wire.destructure.
  assert (Ht : forall o, Wire.template (given o) = template o) by (by intros []).
  assert (Hv : forall o, Wire.value (given o) = of_optional o) by (by intros []).
  assert (Ho : forall o, Wire.optional (given o) = o) by (by intros []).
  destruct (switch name); rewrite ?mret_bind; cbn [of_args Wire.file_path Wire.mime_type
    Wire.folder_id Wire.asset_id Wire.name]; rewrite ?Ht, ?Hv, ?Ho; try done.
  - by destruct (Args.file_path args).
  - by rewrite typed_list_assets_query, mret_bind.
  - by rewrite typed_list_folders_query, mret_bind.
  - by rewrite typed_create_folder_body.
Qed.

End WireFacts.

Section WireClaims.

Variable API_KEY : string.
Variable readFileSync : string -> Outcome (list byte).
Variable fetch : string -> RequestInit -> Outcome Response.

Abbreviation makeRequest' := (makeRequest API_KEY fetch).
Abbreviation wire_dispatch := (Wire.dispatch API_KEY readFileSync fetch).
Abbreviation invoke := (Wire.CallToolRequest_handler API_KEY readFileSync fetch).



(** C10 (as amended). Nothing checks an argument against the [enum] or
    the bounds of its schema entry. Whatever string [project_type] is, it
    is the [project_type] of the body of [create_folder], whose JSON text
    is the body of the request. Whatever number [limit] is, the query of
    [list_assets] (and of [list_folders], when [is_trash] is not [null])
    holds the text [toString] gives for it, and the URL holds that text
    URL-encoded. For an integer up to 2^53 - 1 in magnitude the text is
    its decimal digits, which URL encoding leaves as they are. Whatever
    non-empty string [file_type] is, the query of [list_assets] holds it
    when [limit] is not [null]. The schema does reject some of these
    values. An empty string given as [file_type] is not forwarded: the
    query holds no [file_type] then. A [limit] that is [null] is not
    forwarded either: no request is sent, and the result is flagged. *)
Theorem schema_is_never_consulted (args : Wire.bag) :
  (forall s, Wire.project_type args = Wire.Held s ->
     exists rest options,
       Wire.create_folder_body args = VObject (("project_type", VString s) :: rest) /\
       trace (invoke {| Wire.params_name := "create_folder";
                        Wire.params_arguments := Some args |})
       = [Fetch (API_BASE_URL +:+ "/folders/create") options] /\
       body options = BodyString <$> JSON_stringify (Wire.create_folder_body args)) /\
  (forall n, Wire.limit args = Wire.Held n ->
     (exists queryParams options,
        outcome (Wire.list_assets_queryParams args) = Returned queryParams /\
        ("limit", Wire.printed n) ∈ queryParams /\
        trace (invoke {| Wire.params_name := "list_assets";
                         Wire.params_arguments := Some args |})
        = [Fetch (API_BASE_URL +:+ "/asset/list" +:+ "?"
                    +:+ URLSearchParams_toString queryParams) options]) /\
     (Wire.is_trash args <> Wire.Null ->
      exists queryParams options,
        outcome (Wire.list_folders_queryParams args) = Returned queryParams /\
        ("limit", Wire.printed n) ∈ queryParams /\
        trace (invoke {| Wire.params_name := "list_folders";
                         Wire.params_arguments := Some args |})
        = [Fetch (API_BASE_URL +:+ "/folders" +:+ "?"
                    +:+ URLSearchParams_toString queryParams) options])) /\
  (forall z, safe_integer z -> Wire.limit args = Wire.Held (Wire.integer z) ->
     exists queryParams,
       outcome (Wire.list_assets_queryParams args) = Returned queryParams /\
       ("limit", Number_toString z) ∈ queryParams /\
       urlencode (Number_toString z) = Number_toString z) /\
  (forall s, Wire.file_type args = Wire.Held s -> s <> "" -> Wire.limit args <> Wire.Null ->
     exists queryParams,
       outcome (Wire.list_assets_queryParams args) = Returned queryParams /\
       ("file_type", s) ∈ queryParams) /\
  (Wire.file_type args = Wire.Held "" -> Wire.limit args <> Wire.Null ->
     exists queryParams,
       outcome (Wire.list_assets_queryParams args) = Returned queryParams /\
       forall v, ("file_type", v) ∉ queryParams) /\
  (Wire.limit args = Wire.Null ->
     refused_before_any_call
       (invoke {| Wire.params_name := "list_assets"; Wire.params_arguments := Some args |}) /\
     refused_before_any_call
       (invoke {| Wire.params_name := "list_folders"; Wire.params_arguments := Some args |})) /\
  (exists p q s z,
     schema_property "create_folder" "project_type" = Some p /\ accepts_string p s = false /\
     schema_property "list_assets" "limit" = Some q /\ accepts_number q z = false).
Proof.
  split; [|split; [|split; [|split; [|split; [|split]]]]].
  - intros s Hs. destruct (wire_create_folder_body_head args) as [rest Hb].
    rewrite Hs in Hb. exists rest. eexists. split; [done|].
    split; [apply wire_create_folder_trace|]. by rewrite Hb.
  - intros n Hn. split.
    + destruct (wire_list_assets_queryParams args) as (q & Hq & Hin & _); [by rewrite Hn|].
      assert (Hl : ("limit", Wire.printed n) ∈ q).
      { apply Hin. right; right; left. split; [done|]. by exists n. }
      exists q. eexists. split; [by rewrite Hq|]. split; [exact Hl|].
      rewrite (wire_list_assets_trace _ _ _ _ _ Hq), with_query_cons; [done|].
      intros ->. by apply elem_of_nil in Hl.
    + intros Ht.
      destruct (wire_list_folders_queryParams args) as (q & Hq & Hin & _);
        [by rewrite Hn|done|].
      assert (Hl : ("limit", Wire.printed n) ∈ q).
      { apply Hin. left. split; [done|]. by exists n. }
      exists q. eexists. split; [by rewrite Hq|]. split; [exact Hl|].
      rewrite (wire_list_folders_trace _ _ _ _ _ Hq), with_query_cons; [done|].
      intros ->. by apply elem_of_nil in Hl.
  - intros z _ Hz.
    destruct (wire_list_assets_queryParams args) as (q & Hq & Hin & _); [by rewrite Hz|].
    exists q. split; [by rewrite Hq|]. split; [|apply urlencode_number].
    apply Hin. right; right; left. split; [done|]. by exists (Wire.integer z).
  - intros s Hs Hne Hl.
    destruct (wire_list_assets_queryParams args Hl) as (q & Hq & Hin & _).
    exists q. split; [by rewrite Hq|]. apply Hin. right; left. done.
  - intros Hs Hl.
    destruct (wire_list_assets_queryParams args Hl) as (q & Hq & Hin & _).
    exists q. split; [by rewrite Hq|]. intros v Hv. apply Hin in Hv.
    rewrite Hs in Hv. naive_solver.
  - intros Hl. split.
    + destruct (wire_list_assets_null args Hl) as [e He].
      apply (invoke_refused _ _ _ _ _ e).
      by rewrite (wire_dispatch_list_assets _ _ _ "list_assets" args eq_refl), He.
    + destruct (wire_list_folders_null args (or_introl Hl)) as [e He].
      apply (invoke_refused _ _ _ _ _ e).
      by rewrite (wire_dispatch_list_folders _ _ _ "list_folders" args eq_refl), He.
  - eexists _, _, "movie", 101.
    split; [reflexivity|]. split; [done|]. split; [reflexivity|done].
Qed.

(** The trace of [upload_asset], by what is at [file_path] and what the
    file system does. *)
Lemma wire_upload_asset_trace name args :
  switch name = case_upload_asset ->
  trace (wire_dispatch name (Some args))
  = match Wire.file_path args with
    | Wire.Held path =>
        match readFileSync path with
        | Thrown _ => [ReadFile path]
        | Returned data =>
            [ReadFile path;
             Fetch (UPLOAD_BASE_URL +:+ "/asset")
               (makeRequest_options API_KEY "POST" (VBuffer data)
                  (Wire.optional (Wire.mime_type args)))]
        end
    | _ => []
    end.
Proof.
  intros Hu. rewrite (wire_dispatch_upload_asset _ _ _ _ _ Hu). unfold Wire.read_file.
  destruct (Wire.file_path args) as [| |path]; [done..|].
  destruct (readFileSync path) as [data|e] eqn:Hr.
  - rewrite (bind_returned _ _ data) by done. cbn [trace].
    by rewrite wrap_trace, makeRequest_trace.
  - by rewrite (bind_thrown _ _ e).
Qed.

(** X1. Handling one invocation sends at most one request. An unknown
    tool makes no outside call at all. A known tool invoked with no
    argument object makes none either, and its result is flagged. With
    an argument object, every known tool but [upload_asset] makes exactly
    one call, the request, also when the request fails (nothing is
    retried), unless a list tool is to print a [null], which makes no
    call and gives a flagged result. [upload_asset] makes no call when
    [file_path] is absent or [null], only the file read when the read
    fails, and the read followed by the request when it succeeds. No
    other tool reads a file. *)
Theorem invocation_calls_outside_at_most_once (request : Wire.request) :
  (length (fetches (trace (invoke request))) <= 1)%nat /\
  (switch (Wire.params_name request) = case_default -> trace (invoke request) = []) /\
  (switch (Wire.params_name request) <> case_default ->
   Wire.params_arguments request = None ->
   refused_before_any_call (invoke request)) /\
  (forall args,
     Wire.params_arguments request = Some args ->
     switch (Wire.params_name request) <> case_default ->
     switch (Wire.params_name request) <> case_upload_asset ->
     (prints (switch (Wire.params_name request)) args ->
      exists url options, trace (invoke request) = [Fetch url options]) /\
     (~ prints (switch (Wire.params_name request)) args ->
      refused_before_any_call (invoke request))) /\
  (forall args,
     Wire.params_arguments request = Some args ->
     switch (Wire.params_name request) = case_upload_asset ->
     trace (invoke request)
     = match Wire.file_path args with
       | Wire.Held path =>
           match readFileSync path with
           | Thrown _ => [ReadFile path]
           | Returned data =>
               [ReadFile path;
                Fetch (UPLOAD_BASE_URL +:+ "/asset")
                  (makeRequest_options API_KEY "POST" (VBuffer data)
                     (Wire.optional (Wire.mime_type args)))]
           end
       | _ => []
       end) /\
  (forall path, ReadFile path ∈ trace (invoke request) ->
     switch (Wire.params_name request) = case_upload_asset /\
     exists args,
       Wire.params_arguments request = Some args /\ Wire.file_path args = Wire.Held path).
Proof.
  destruct request as [name args]; cbn [Wire.params_name Wire.params_arguments].
  destruct (decide (switch name = case_default)) as [Hd|Hd].
  { rewrite invoke_trace; cbn [Wire.params_name Wire.params_arguments].
    rewrite (wire_dispatch_default _ _ _ _ _ Hd). cbn.
    split; [lia|]. split; [done|]. split; [done|]. split; [done|]. split; [by rewrite Hd|].
    by intros path ?%elem_of_nil. }
  destruct args as [args|].
  2:{ destruct (wire_dispatch_without_arguments API_KEY readFileSync fetch name Hd) as [e He].
      pose proof (invoke_refused API_KEY readFileSync fetch name None e He) as Href.
      destruct Href as [Htr Hout]. rewrite Htr. cbn.
      split; [lia|]. split; [done|]. split; [by split|]. split; [done|]. split; [done|].
      by intros path ?%elem_of_nil. }
  destruct (decide (switch name = case_upload_asset)) as [Hu|Hu].
  { rewrite invoke_trace; cbn [Wire.params_name Wire.params_arguments].
    rewrite (wire_upload_asset_trace _ _ Hu).
    split; [|split; [done|split; [done|split; [done|split]]]].
    - destruct (Wire.file_path args) as [| |path]; [cbn; lia..|].
      destruct (readFileSync path); cbn; lia.
    - by intros a [= ->] _.
    - intros path. destruct (Wire.file_path args) as [| |p] eqn:Hp;
        [by intros ?%elem_of_nil..|].
      destruct (readFileSync p).
      + rewrite !elem_of_cons, elem_of_nil. intros [[= ->]|[[=]|[]]]. eauto.
      + rewrite elem_of_cons, elem_of_nil. intros [[= ->]|[]]. eauto. }
  assert (Hcases :
            (prints (switch name) args /\
             exists url options,
               trace (invoke {| Wire.params_name := name; Wire.params_arguments := Some args |})
               = [Fetch url options]) \/
            (~ prints (switch name) args /\
             refused_before_any_call
               (invoke {| Wire.params_name := name; Wire.params_arguments := Some args |}))).
  { destruct (decide (switch name = case_list_assets)) as [Ha|Ha].
    { rewrite Ha. cbn [prints].
      destruct (null_or_not (Wire.limit args)) as [Hl|Hl].
      - right. split; [by intros ?|].
        destruct (wire_list_assets_null args Hl) as [e He].
        apply (invoke_refused _ _ _ _ _ e).
        by rewrite (wire_dispatch_list_assets _ _ _ _ _ Ha), He.
      - left. split; [done|].
        destruct (wire_list_assets_queryParams args Hl) as (q & Hq & _).
        rewrite invoke_trace; cbn [Wire.params_name Wire.params_arguments].
        rewrite (wire_dispatch_list_assets _ _ _ _ _ Ha), Hq, mret_bind.
        rewrite wrap_trace, makeRequest_trace. eauto. }
    destruct (decide (switch name = case_list_folders)) as [Hf|Hf].
    { rewrite Hf. cbn [prints].
      destruct (null_or_not (Wire.limit args)) as [Hl|Hl];
        [|destruct (null_or_not (Wire.is_trash args)) as [Ht|Ht]].
      - right. split; [by intros [? _]|].
        destruct (wire_list_folders_null args (or_introl Hl)) as [e He].
        apply (invoke_refused _ _ _ _ _ e).
        by rewrite (wire_dispatch_list_folders _ _ _ _ _ Hf), He.
      - right. split; [by intros [_ ?]|].
        destruct (wire_list_folders_null args (or_intror Ht)) as [e He].
        apply (invoke_refused _ _ _ _ _ e).
        by rewrite (wire_dispatch_list_folders _ _ _ _ _ Hf), He.
      - left. split; [done|].
        destruct (wire_list_folders_queryParams args Hl Ht) as (q & Hq & _).
        rewrite invoke_trace; cbn [Wire.params_name Wire.params_arguments].
        rewrite (wire_dispatch_list_folders _ _ _ _ _ Hf), Hq, mret_bind.
        rewrite wrap_trace, makeRequest_trace. eauto. }
    left. split; [by destruct (switch name)|].
    rewrite invoke_trace; cbn [Wire.params_name Wire.params_arguments].
    rewrite (wire_dispatch_one_request _ _ _ _ _ Hd Hu Ha Hf).
    rewrite wrap_trace. destruct (switch name); rewrite makeRequest_trace; eauto. }
  destruct Hcases as [[Hp (url & options & Htr)]|[Hp [Htr Hout]]]; rewrite Htr; cbn.
  - split; [lia|]. split; [done|]. split; [done|]. split; [|split; [done|]].
    + intros a [= <-] _ _. split; [eauto|done].
    + intros path. rewrite elem_of_cons, elem_of_nil. by intros [[=]|[]].
  - split; [lia|]. split; [done|]. split; [done|]. split; [|split; [done|]].
    + intros a [= <-] _ _. split; [done|]. intros _. by split.
    + by intros path ?%elem_of_nil.
Qed.

(** X6. Given an argument object, [delete_asset], [trash_folder] and
    [restore_folder] send the same kind of request: a POST with no body
    and no header but the credential, to the route with the identifier
    spliced in as it is (not URL-encoded). Nothing checks that the
    identifier is there: when the property is absent the path holds the
    word [undefined], and when it holds [null] the word [null]. With no
    argument object no request is sent and the result is flagged. *)
Theorem id_routes_post_without_a_body (args : Wire.bag) :
  (exists options,
     trace (invoke {| Wire.params_name := "delete_asset"; Wire.params_arguments := Some args |})
     = [Fetch (API_BASE_URL +:+ "/asset/" +:+ Wire.template (Wire.asset_id args) +:+ "/delete")
          options] /\
     trace (invoke {| Wire.params_name := "trash_folder"; Wire.params_arguments := Some args |})
     = [Fetch (API_BASE_URL +:+ "/folders/" +:+ Wire.template (Wire.folder_id args) +:+ "/trash")
          options] /\
     trace (invoke {| Wire.params_name := "restore_folder";
                      Wire.params_arguments := Some args |})
     = [Fetch (API_BASE_URL +:+ "/folders/" +:+ Wire.template (Wire.folder_id args)
                 +:+ "/restore") options] /\
     method options = "POST" /\
     body options = None /\
     headers options = {[ "X-Api-Key" := API_KEY ]} /\
     (Wire.asset_id args = Wire.Absent ->
      trace (invoke {| Wire.params_name := "delete_asset";
                       Wire.params_arguments := Some args |})
      = [Fetch "https://api.heygen.com/v1/asset/undefined/delete" options]) /\
     (Wire.asset_id args = Wire.Null ->
      trace (invoke {| Wire.params_name := "delete_asset";
                       Wire.params_arguments := Some args |})
      = [Fetch "https://api.heygen.com/v1/asset/null/delete" options]) /\
     (forall id, Wire.folder_id args = Wire.Held id ->
      trace (invoke {| Wire.params_name := "trash_folder";
                       Wire.params_arguments := Some args |})
      = [Fetch ("https://api.heygen.com/v1/folders/" +:+ id +:+ "/trash") options])) /\
  refused_before_any_call
    (invoke {| Wire.params_name := "delete_asset"; Wire.params_arguments := None |}) /\
  refused_before_any_call
    (invoke {| Wire.params_name := "trash_folder"; Wire.params_arguments := None |}) /\
  refused_before_any_call
    (invoke {| Wire.params_name := "restore_folder"; Wire.params_arguments := None |}).
Proof.
  assert (Hnone : forall name, switch name <> case_default ->
            refused_before_any_call
              (invoke {| Wire.params_name := name; Wire.params_arguments := None |})).
  { intros name Hd.
    destruct (wire_dispatch_without_arguments API_KEY readFileSync fetch name Hd) as [e He].
    by apply (invoke_refused _ _ _ _ _ e). }
  split; [|split; [by apply Hnone|split; by apply Hnone]].
  exists (makeRequest_options API_KEY "POST" VUndefined None).
  assert (Hd : trace (invoke {| Wire.params_name := "delete_asset";
                                Wire.params_arguments := Some args |})
               = [Fetch (API_BASE_URL +:+ "/asset/" +:+ Wire.template (Wire.asset_id args)
                           +:+ "/delete")
                    (makeRequest_options API_KEY "POST" VUndefined None)]).
  { rewrite invoke_trace; cbn [Wire.params_name Wire.params_arguments].
    rewrite (wire_dispatch_one_request _ _ _ "delete_asset" args) by done.
    cbn [switch String.eqb Ascii.eqb Bool.eqb]. by rewrite wrap_trace, makeRequest_trace. }
  assert (Ht : trace (invoke {| Wire.params_name := "trash_folder";
                                Wire.params_arguments := Some args |})
               = [Fetch (API_BASE_URL +:+ "/folders/" +:+ Wire.template (Wire.folder_id args)
                           +:+ "/trash")
                    (makeRequest_options API_KEY "POST" VUndefined None)]).
  { rewrite invoke_trace; cbn [Wire.params_name Wire.params_arguments].
    rewrite (wire_dispatch_one_request _ _ _ "trash_folder" args) by done.
    cbn [switch String.eqb Ascii.eqb Bool.eqb]. by rewrite wrap_trace, makeRequest_trace. }
  split; [exact Hd|]. split; [exact Ht|].
  split; [|split; [done|split; [done|split; [done|split; [|split]]]]].
  - rewrite invoke_trace; cbn [Wire.params_name Wire.params_arguments].
    rewrite (wire_dispatch_one_request _ _ _ "restore_folder" args) by done.
    cbn [switch String.eqb Ascii.eqb Bool.eqb]. by rewrite wrap_trace, makeRequest_trace.
  - intros Ha. by rewrite Hd, Ha.
  - intros Ha. by rewrite Hd, Ha.
  - intros id Hid. by rewrite Ht, Hid.
Qed.

(** X7. Given an argument object, [update_folder] sends a POST to
    [/folders/id] with the JSON content type, whose body is [{ name }] in
    JSON: the name as a quoted JSON string, also when it is empty,
    [null] when the name is [null], and the empty object [{}] when the
    property is absent. With no argument object no request is sent and
    the result is flagged. *)
Theorem update_folder_sends_the_name (args : Wire.bag) :
  (exists options,
     trace (invoke {| Wire.params_name := "update_folder";
                      Wire.params_arguments := Some args |})
     = [Fetch (API_BASE_URL +:+ "/folders/" +:+ Wire.template (Wire.folder_id args)) options] /\
     method options = "POST" /\
     headers options !! "Content-Type" = Some "application/json" /\
     (forall name, Wire.name args = Wire.Held name ->
        body options
        = Some (BodyString ("{" +:+ quoted "name" +:+ ":" +:+ QuoteJSONString name +:+ "}"))) /\
     (Wire.name args = Wire.Null ->
        body options = Some (BodyString ("{" +:+ quoted "name" +:+ ":null}"))) /\
     (Wire.name args = Wire.Absent -> body options = Some (BodyString "{}"))) /\
  refused_before_any_call
    (invoke {| Wire.params_name := "update_folder"; Wire.params_arguments := None |}).
Proof.
  split.
  - exists (makeRequest_options API_KEY "POST"
              (VObject [("name", Wire.value (Wire.name args))]) (Some "application/json")).
    split; [|split; [done|split; [|split; [|split]]]].
    + rewrite invoke_trace; cbn [Wire.params_name Wire.params_arguments].
      rewrite (wire_dispatch_one_request _ _ _ "update_folder" args) by done.
      cbn [switch String.eqb Ascii.eqb Bool.eqb]. by rewrite wrap_trace, makeRequest_trace.
    + cbn. by rewrite lookup_insert_eq.
    + by intros name ->.
    + by intros ->.
    + by intros ->.
  - destruct (wire_dispatch_without_arguments API_KEY readFileSync fetch "update_folder")
      as [e He]; [done|].
    by apply (invoke_refused _ _ _ _ _ e).
Qed.

(** X8. Given an argument object, the body of [create_folder] is an
    object with [project_type] first (the string given, [mixed] when the
    property is absent, [null] when it holds [null]), then [name] if it
    holds a string that is not empty, then [parent_id] likewise, and
    nothing else. It is sent as JSON text in a POST to [/folders/create]
    with the JSON content type. *)
Theorem create_folder_body_fields (args : Wire.bag) :
  exists fields options,
    Wire.create_folder_body args = VObject fields /\
    fields.*1
    = "project_type"
      :: (if truthy (Wire.value (Wire.name args)) then ["name"] else [])
      ++ (if truthy (Wire.value (Wire.parent_id args)) then ["parent_id"] else []) /\
    (forall k v,
       (k, v) ∈ fields <->
       (k = "project_type" /\
        v = match Wire.project_type args with
            | Wire.Absent => VString "mixed"
            | Wire.Null => VNull
            | Wire.Held s => VString s
            end) \/
       (k = "name" /\
        exists name, Wire.name args = Wire.Held name /\ name <> "" /\ v = VString name) \/
       (k = "parent_id" /\
        exists id, Wire.parent_id args = Wire.Held id /\ id <> "" /\ v = VString id)) /\
    trace (invoke {| Wire.params_name := "create_folder"; Wire.params_arguments := Some args |})
    = [Fetch (API_BASE_URL +:+ "/folders/create") options] /\
    method options = "POST" /\
    headers options !! "Content-Type" = Some "application/json" /\
    exists text, JSON_stringify (VObject fields) = Some text /\
                 body options = Some (BodyString text).
Proof.
  assert (exists fields,
            Wire.create_folder_body args = VObject fields /\
            fields.*1
            = "project_type"
              :: (if truthy (Wire.value (Wire.name args)) then ["name"] else [])
              ++ (if truthy (Wire.value (Wire.parent_id args)) then ["parent_id"] else []) /\
            (forall k v,
               (k, v) ∈ fields <->
               (k = "project_type" /\
                v = match Wire.project_type args with
                    | Wire.Absent => VString "mixed"
                    | Wire.Null => VNull
                    | Wire.Held s => VString s
                    end) \/
               (k = "name" /\
                exists name, Wire.name args = Wire.Held name /\ name <> "" /\ v = VString name) \/
               (k = "parent_id" /\
                exists id, Wire.parent_id args = Wire.Held id /\ id <> "" /\ v = VString id)))
    as (fields & Hbody & Hkeys & Hfields).
  { unfold Wire.create_folder_body. eexists. split; [reflexivity|]. split.
    - by destruct (truthy (Wire.value (Wire.name args))),
        (truthy (Wire.value (Wire.parent_id args))).
    - intros k v.
      destruct (Wire.project_type args) as [| |t], (Wire.name args) as [| |n],
        (Wire.parent_id args) as [| |q]; cbn;
        repeat match goal with
               | |- context [String.eqb ?x ""] => destruct (String.eqb_spec x "")
               end; cbn; rewrite ?elem_of_cons, ?elem_of_nil; naive_solver. }
  exists fields, (makeRequest_options API_KEY "POST" (Wire.create_folder_body args) None).
  split; [done|]. split; [done|]. split; [done|]. split; [|split; [done|split]].
  - apply wire_create_folder_trace.
  - unfold makeRequest_options; cbn [headers]. apply structured_headers; [|done].
    by rewrite Hbody.
  - rewrite <- Hbody.
    destruct (structured_stringify (Wire.create_folder_body args)) as [text Htext];
      [by rewrite Hbody|].
    exists text. split; [exact Htext|].
    unfold makeRequest_options; cbn [body]. rewrite Hbody in *. cbn [truthy].
    by rewrite Htext.
Qed.

End WireClaims.

(** ** The claims on sample invocations *)




(** C10, where the claim fails: [file_type] given as the empty string,
    which the [enum] of the schema does not list, is not forwarded, and
    the request goes to the route with no query string; a [limit] of
    10^21, above the maximum of the schema, is forwarded, but not
    verbatim: the query string holds [1e%2B21]. *)
Lemma empty_file_type_and_large_limit_are_not_verbatim :
  (exists p, schema_property "list_assets" "file_type" = Some p /\ accepts_string p "" = false) /\
  Wire.file_type (Wire.with_file_type (Wire.Held "") Wire.empty) = Wire.Held "" /\
  (exists options,
     trace (Wire.CallToolRequest_handler "secret" no_file (answers success)
              {| Wire.params_name := "list_assets";
                 Wire.params_arguments :=
                   Some (Wire.with_file_type (Wire.Held "") Wire.empty) |})
     = [Fetch "https://api.heygen.com/v1/asset/list" options]) /\
  Wire.printed ten_to_the_21 = "1e+21" /\
  (exists options,
     trace (Wire.CallToolRequest_handler "secret" no_file (answers success)
              {| Wire.params_name := "list_folders";
                 Wire.params_arguments :=
                   Some (Wire.with_limit (Wire.Held ten_to_the_21) Wire.empty) |})
     = [Fetch "https://api.heygen.com/v1/folders?limit=1e%2B21" options]) /\
  includes "1e+21" "https://api.heygen.com/v1/folders?limit=1e%2B21" = false.
Proof.
  split; [eexists; split; [reflexivity|done]|].
  split; [done|]. split; [by eexists|]. split; [done|]. split; [by eexists|done].
Qed.

(** Values the schema rejects, forwarded all the same: a [project_type]
    outside the [enum], and a [limit] above the maximum. *)
Lemma rejected_values_are_forwarded :
  (exists p, schema_property "create_folder" "project_type" = Some p /\
             accepts_string p "movie" = false) /\
  (exists p, schema_property "list_folders" "limit" = Some p /\ accepts_number p 1000 = false) /\
  (exists rest,
     Wire.create_folder_body
       (Wire.with_project_type (Wire.Held "movie")
          (Wire.with_limit (Wire.Held (Wire.integer 1000)) Wire.empty))
     = VObject (("project_type", VString "movie") :: rest)) /\
  (exists options,
     trace (Wire.CallToolRequest_handler "secret" no_file (answers success)
              {| Wire.params_name := "list_folders";
                 Wire.params_arguments :=
                   Some (Wire.with_project_type (Wire.Held "movie")
                           (Wire.with_limit (Wire.Held (Wire.integer 1000)) Wire.empty)) |})
     = [Fetch "https://api.heygen.com/v1/folders?limit=1000" options]).
Proof.
  split; [eexists; split; [reflexivity|done]|].
  split; [eexists; split; [reflexivity|done]|].
  destruct (schema_is_never_consulted "secret" no_file (answers success)
              (Wire.with_project_type (Wire.Held "movie")
                 (Wire.with_limit (Wire.Held (Wire.integer 1000)) Wire.empty)))
    as (Hpt & Hlimit & _).
  split.
  - destruct (Hpt "movie" eq_refl) as (rest & options & Hbody & _). by exists rest.
  - destruct (Hlimit (Wire.integer 1000) eq_refl) as (_ & Hfolders).
    destruct Hfolders as (q & options & Hq & _ & Htr); [done|].
    exists options. rewrite Htr. by injection Hq as <-.
Defined.

(** ** The earlier revision *)

Section EarlierFacts.

Variable API_KEY : string.
Variable readFileSync : string -> Outcome (list byte).
Variable fetch : string -> RequestInit -> Outcome Response.

Lemma earlier_options_agree verb payload contentType :
  Buffer_isBuffer payload = false ->
  Earlier.makeRequest_options API_KEY verb payload contentType
  = makeRequest_options API_KEY verb payload contentType.
Proof.
  intros Hb. unfold Earlier.makeRequest_options, makeRequest_options.
  unfold Earlier.makeRequest_headers, makeRequest_headers. rewrite Hb.
  rewrite andb_true_r. by destruct payload.
Qed.

Lemma earlier_makeRequest_agrees url verb payload contentType :
  Buffer_isBuffer payload = false ->
  Earlier.makeRequest API_KEY fetch url verb payload contentType
  = makeRequest API_KEY fetch url verb payload contentType.
Proof.
  intros Hb. unfold Earlier.makeRequest, makeRequest. by rewrite earlier_options_agree.
Qed.

(** X14. In the earlier revision [upload_asset] makes no outside call:
    it reads no file and sends nothing. It returns an unflagged text of
    instructions, and that text includes the file path, the MIME type and
    the credential itself. *)
Theorem earlier_upload_asset_only_explains args :
  exists text,
    Earlier.CallToolRequest_handler API_KEY fetch
      {| params_name := "upload_asset"; params_arguments := args |}
    = mkIO [] (Returned {| content := [ {| type := "text"; text := Some text |} ];
                           isError := None |}) /\
    includes API_KEY text = true /\
    includes (template (Args.file_path args)) text = true /\
    includes (template (Args.mime_type args)) text = true.
Proof.
  exists (Earlier.upload_instructions API_KEY (Args.file_path args) (Args.mime_type args)).
  split; [done|]. unfold Earlier.upload_instructions. split; [|split].
  - eapply (includes_join _ _ _ ("  -H " +:+ quoted ("X-Api-Key: " +:+ API_KEY) +:+ " \")).
    + set_solver.
    + apply includes_app_r, includes_app_left, includes_quoted, includes_app_r, includes_refl.
  - eapply (includes_join _ _ _ ("1. Read the file at: " +:+ template (Args.file_path args))).
    + set_solver.
    + apply includes_app_r, includes_refl.
  - eapply (includes_join _ _ _
              ("3. Set Content-Type header to: " +:+ template (Args.mime_type args))).
    + set_solver.
    + apply includes_app_r, includes_refl.
Qed.

(** X15. The adapter of the earlier revision builds the same request as
    the current one, and ends in the same way, for every body that is not
    a buffer. For a buffer with no content type the earlier one set the
    JSON content type and sent the JSON description of the buffer
    ([{ type: "Buffer", data: [...] }]), where the current one sends the
    bytes with no content type. *)
Theorem earlier_adapter_differs_on_buffers_only verb contentType :
  (forall payload, Buffer_isBuffer payload = false ->
     Earlier.makeRequest_options API_KEY verb payload contentType
     = makeRequest_options API_KEY verb payload contentType) /\
  (forall url payload, Buffer_isBuffer payload = false ->
     Earlier.makeRequest API_KEY fetch url verb payload contentType
     = makeRequest API_KEY fetch url verb payload contentType) /\
  (forall data, contentType = None \/ contentType = Some "" ->
     headers (Earlier.makeRequest_options API_KEY verb (VBuffer data) contentType)
       !! "Content-Type" = Some "application/json" /\
     body (Earlier.makeRequest_options API_KEY verb (VBuffer data) contentType)
     = Some (BodyString
         ("{" +:+ quoted "type" +:+ ":" +:+ quoted "Buffer" +:+ "," +:+ quoted "data" +:+ ":["
            +:+ join "," (map (fun b => Number_toString (byte_number b)) data) +:+ "]}")) /\
     headers (makeRequest_options API_KEY verb (VBuffer data) contentType)
       !! "Content-Type" = None /\
     body (makeRequest_options API_KEY verb (VBuffer data) contentType)
     = Some (BodyBuffer data)).
Proof.
  split; [intros; by apply earlier_options_agree|].
  split; [intros; by apply earlier_makeRequest_agrees|].
  intros data Hct. split; [|split; [|split; [|done]]].
  - by destruct Hct as [-> | ->]; cbn; rewrite lookup_insert_eq.
  - destruct data as [|b data]; [done|]. cbn.
    match goal with |- context [match ?l with [] => ?x | _ :: _ => ?y end] =>
      generalize (match l with [] => x | _ :: _ => y end) end.
    intros digits. unfold member, QuoteJSONString, quoted. cbn.
    repeat (rewrite !append_assoc; cbn). done.
  - apply unstructured_headers; [by right; left|]. by destruct Hct as [-> | ->].
Qed.

(** X16. The earlier dispatcher and the current one do the same for
    [delete_asset], [update_folder], [trash_folder], [restore_folder] and
    unknown names. The earlier list tools ignore their arguments: they do
    what the current ones do with the empty bag. The earlier
    [create_folder] does what the current one does with [project_type]
    alone. *)
Theorem earlier_dispatcher_agrees name args :
  (switch name = case_delete_asset \/ switch name = case_update_folder \/
   switch name = case_trash_folder \/ switch name = case_restore_folder \/
   switch name = case_default ->
   Earlier.CallToolRequest_handler API_KEY fetch
     {| params_name := name; params_arguments := args |}
   = CallToolRequest_handler API_KEY readFileSync fetch
       {| params_name := name; params_arguments := args |}) /\
  (switch name = case_list_assets \/ switch name = case_list_folders ->
   Earlier.CallToolRequest_handler API_KEY fetch
     {| params_name := name; params_arguments := args |}
   = CallToolRequest_handler API_KEY readFileSync fetch
       {| params_name := name; params_arguments := Args.empty |}) /\
  (switch name = case_create_folder ->
   Earlier.CallToolRequest_handler API_KEY fetch
     {| params_name := name; params_arguments := args |}
   = CallToolRequest_handler API_KEY readFileSync fetch
       {| params_name := name;
          params_arguments := Args.with_project_type (Args.project_type args) Args.empty |}).
Proof.
  unfold Earlier.CallToolRequest_handler, CallToolRequest_handler, Earlier.dispatch, dispatch.
  cbn [params_name params_arguments].
  split; [|split].
  - intros [H|[H|[H|[H|H]]]]; rewrite H; by rewrite ?earlier_makeRequest_agrees.
  - intros [H|H]; rewrite H; by rewrite ?earlier_makeRequest_agrees.
  - intros H; rewrite H. by rewrite ?earlier_makeRequest_agrees.
Qed.

End EarlierFacts.

(** X17. The current catalog keeps the earlier one: the same tool names
    in the same order (the names the switch handles), and for each tool
    every required name and every property of the earlier schema, with
    its type and its default. *)
Theorem earlier_catalog_is_kept :
  Tool.name <$> Earlier.tools = Tool.name <$> tools /\
  (forall name, name ∈ Tool.name <$> Earlier.tools <-> switch name <> case_default) /\
  Forall2 (fun old new =>
             Tool.name old = Tool.name new /\
             required (Tool.inputSchema old) ⊆ required (Tool.inputSchema new) /\
             forall p, p ∈ properties (Tool.inputSchema old) ->
               exists q, q ∈ properties (Tool.inputSchema new) /\
                         property q = property p /\ property_type q = property_type p /\
                         default_value q = default_value p)
    Earlier.tools tools.
Proof.
  split; [done|]. split.
  - intros name. rewrite switch_handles. unfold Earlier.tools, tool_names. cbn.
    rewrite !elem_of_cons, elem_of_nil, !elem_of_union, !elem_of_singleton. naive_solver.
  - unfold Earlier.tools, tools.
    repeat (apply List.Forall2_cons;
            [split; [done|]; split; [set_solver|]; cbn;
             intros p Hp; repeat (apply elem_of_cons in Hp as [->|Hp]);
             try (by apply elem_of_nil in Hp);
             first
               [ eexists; split; [apply elem_of_cons; left; reflexivity|done]
               | eexists; split;
                 [apply elem_of_cons; right; apply elem_of_cons; left; reflexivity|done]
               | eexists; split;
                 [do 2 (apply elem_of_cons; right); apply elem_of_cons; left; reflexivity
                 |done] ]
            |]).
    apply List.Forall2_nil.
Qed.

(** ** The catalog *)

(** X18. The catalog is consistent with itself and with the dispatcher:
    in every schema the property names are distinct, every required name
    is a declared property, a declared default is accepted by the [enum]
    of its own entry, and a minimum is not above its maximum; and the
    default the schema declares for [project_type] is the one
    [create_folder] puts in the body when none is given. *)
Theorem catalog_is_consistent :
  Forall (fun tool =>
            NoDup (property <$> properties (Tool.inputSchema tool)) /\
            required (Tool.inputSchema tool)
            ⊆ property <$> properties (Tool.inputSchema tool) /\
            Forall (fun p =>
                      (forall d, default_value p = Some d -> accepts_string p d = true) /\
                      (forall lo hi, minimum p = Some lo -> maximum p = Some hi -> lo <= hi))
              (properties (Tool.inputSchema tool)))
    ListToolsRequest_handler /\
  exists p d,
    schema_property "create_folder" "project_type" = Some p /\
    default_value p = Some d /\
    forall args, Args.project_type args = None ->
      exists rest, create_folder_body args = VObject (("project_type", VString d) :: rest).
Proof.
  split.
  - unfold ListToolsRequest_handler, tools.
    repeat (apply List.Forall_cons;
            [split; [by apply (bool_decide_unpack _)|]; split; [set_solver|];
             cbn [properties Tool.inputSchema];
             repeat (apply List.Forall_cons;
                     [split; [by intros d [= <-] | by intros lo hi [= <-] [= <-]]|]);
             apply List.Forall_nil|]).
    apply List.Forall_nil.
  - eexists _, "mixed". split; [reflexivity|]. split; [done|].
    intros args Hnone. destruct (create_folder_body_head args) as [rest Hrest].
    rewrite Hnone in Hrest. by exists rest.
Qed.

(** ** More concrete runs *)

(** A [list_assets] request, seen from outside. *)
Lemma list_request_stays_within_the_api :
  (method (makeRequest_options "secret" "GET" VUndefined None) = "GET" \/
   method (makeRequest_options "secret" "GET" VUndefined None) = "POST") /\
  body (makeRequest_options "secret" "GET" VUndefined None) = None /\
  headers (makeRequest_options "secret" "GET" VUndefined None) !! "X-Api-Key" = Some "secret".
Proof.
  destruct (requests_stay_within_the_api "secret" no_file (answers success)
              {| params_name := "list_assets";
                 params_arguments := Args.with_limit (Some 5) Args.empty |}
              "https://api.heygen.com/v1/asset/list?limit=5"
              (makeRequest_options "secret" "GET" VUndefined None))
    as (_ & _ & Hmethod & Hget & Hbody & _ & Hkey).
  { rewrite list_assets_request. apply list_elem_of_singleton. reflexivity. }
  split; [exact Hmethod|]. split; [|exact Hkey].
  apply Hbody. apply Hget. left. reflexivity.
Defined.

(** A [delete_asset] that succeeds. *)
Lemma delete_asset_answer_is_wrapped :
  outcome (CallToolRequest_handler "secret" no_file (answers success)
             {| params_name := "delete_asset"; params_arguments := Args.empty |})
  = Returned
      {| content :=
           [ {| type := "text";
                text := JSON_stringify_pretty
                          (VObject [("error", VNull);
                                    ("data", VObject [("id", VString "a1")])]) |} ];
         isError := None |}.
Proof.
  apply (handler_wraps_the_response "secret" no_file (answers success)
           {| params_name := "delete_asset"; params_arguments := Args.empty |} success).
  - split; [discriminate | intros H; discriminate H].
  - reflexivity.
  - reflexivity.
  - simpl. lia.
Defined.

(** A [trash_folder] with the network down. *)
Lemma refused_connection_is_reported :
  outcome (CallToolRequest_handler "secret" no_file
             (fun _ _ => Thrown (ErrorInstance "connect ECONNREFUSED"))
             {| params_name := "trash_folder"; params_arguments := Args.empty |})
  = Returned (error_result "Error: connect ECONNREFUSED").
Proof.
  apply (network_failure_is_reported "secret" no_file
           (fun _ _ => Thrown (ErrorInstance "connect ECONNREFUSED"))
           {| params_name := "trash_folder"; params_arguments := Args.empty |}
           (ErrorInstance "connect ECONNREFUSED")).
  - split; [discriminate | intros H; discriminate H].
  - reflexivity.
Defined.

(** The result for an unknown tool is flagged. *)
Lemma unknown_tool_is_flagged :
  isError (error_result "Unknown tool: rename_folder") = Some true <->
  switch "rename_folder" = case_default \/
  exists e, outcome (dispatch "secret" no_file refuses "rename_folder" Args.empty) = Thrown e.
Proof.
  apply (flag_marks_exactly_the_failures "secret" no_file refuses
           {| params_name := "rename_folder"; params_arguments := Args.empty |}
           (error_result "Unknown tool: rename_folder")).
  reflexivity.
Defined.

(** [delete_asset] does not look at [limit]. *)
Lemma delete_asset_ignores_limit :
  CallToolRequest_handler "secret" no_file (answers success)
    {| params_name := "delete_asset";
       params_arguments :=
         {| Args.file_path := None; Args.mime_type := None; Args.folder_id := None;
            Args.file_type := None; Args.limit := Some 5; Args.token := None;
            Args.asset_id := Some "a1"; Args.parent_id := None; Args.name_filter := None;
            Args.is_trash := None; Args.name := None; Args.project_type := None |} |}
  = CallToolRequest_handler "secret" no_file (answers success)
      {| params_name := "delete_asset";
         params_arguments :=
           {| Args.file_path := None; Args.mime_type := None; Args.folder_id := None;
              Args.file_type := None; Args.limit := None; Args.token := None;
              Args.asset_id := Some "a1"; Args.parent_id := None; Args.name_filter := None;
              Args.is_trash := None; Args.name := None; Args.project_type := None |} |}.
Proof.
  apply (handler_reads_declared_arguments_only "secret" no_file (answers success)
           {| Tool.name := "delete_asset";
              Tool.description := "Delete a specific asset by its unique asset ID from HeyGen.";
              Tool.inputSchema := {|
                properties := [ plain "asset_id" "string" "The unique ID of the asset to delete" ];
                required := ["asset_id"] |} |}).
  - unfold ListToolsRequest_handler, tools.
    apply elem_of_cons; right. apply elem_of_cons; right. apply elem_of_cons; left.
    reflexivity.
  - intros p Hp. apply list_elem_of_singleton in Hp. rewrite Hp. reflexivity.
Defined.

(** A 502 whose body is not JSON, seen from the handler. *)
Lemma bad_gateway_is_flagged :
  outcome (CallToolRequest_handler "secret" no_file (answers bad_gateway)
             {| params_name := "list_folders"; params_arguments := Args.empty |})
  = Returned (error_result "Error: Unexpected token < in JSON at position 0").
Proof.
  destruct (upstream_errors_are_flagged "secret" no_file (answers bad_gateway)
              {| params_name := "list_folders"; params_arguments := Args.empty |}
              bad_gateway) as (_ & Hparse & _).
  - split; [discriminate | intros H; discriminate H].
  - reflexivity.
  - exact (Hparse _ eq_refl).
Defined.
